(** * Step-challenge app: the band session core

    A shallow embedding of the device-session logic of the React Native
    step-challenge apps (BLE heart-rate notifications, the 10-second step
    poll, the daily/weekly records, the Monday reset and the auto-save),
    followed by the theorems that relate it to the written specification.

    The repository holds several stand-alone variants of [app/index.tsx].
    Each variant whose code a theorem talks about has a module of its own
    below, named after its directory:

    - [WeeklyReset]     "stepchall- LT - weekly reset/app/index.tsx"
    - [AddWeeklyTotal]  "stepchall - LT - add weekly total/app/index.tsx"
    - [CrashChanges]    "stepchall - LT- crash changes/app/index.tsx"
    - [Part002]         "unnamed/part_002"
    - [Part000]         "unnamed/part_000"

    Module [JS] holds the semantics of the JavaScript operations the
    handlers use: [Buffer] reads (the [buffer] package), the bitwise
    [&], [Array.prototype.slice], [Math.floor], [Number.prototype.toFixed]
    and [parseFloat]. *)

From Stdlib Require Import ZArith Lia Floats.
From Stdlib.Strings Require Import Byte.
From stdpp Require Import gmap strings list.

(* Decimal literals such as 0.045 denote the nearest binary64 value, exactly
   as the same literal does in JavaScript. *)
Set Warnings "-inexact-float".

Local Open Scope Z_scope.

(* ================================================================== *)
(** * JavaScript operations used by the handlers                       *)
(* ================================================================== *)

Module JS.

(** ** Values and completions *)

(** What an expression such as [data[1]] evaluates to: a number, or
    [undefined] when the index is out of range. *)
Inductive value : Type :=
| Num (n : Z)
| Undefined.

(** An expression either completes with a result or throws.  The only
    exception the decoders can raise is the [RangeError] of a [Buffer]
    read beyond the end of the buffer. *)
Inductive completion (A : Type) : Type :=
| Normal (a : A)
| RangeError.
Arguments Normal {A} a.
Arguments RangeError {A}.

Definition bind {A B} (c : completion A) (k : A -> completion B) : completion B :=
  match c with
  | Normal a => k a
  | RangeError => RangeError
  end.

(** ** Number conversions and operators *)

(** [ToInt32] of an integral number. *)
Definition ToInt32 (z : Z) : Z := (z + 2 ^ 31) mod 2 ^ 32 - 2 ^ 31.

(** [ToInt32] of a value: [undefined] converts to [NaN], and that to 0. *)
Definition ToInt32v (v : value) : Z :=
  match v with
  | Num n => ToInt32 n
  | Undefined => 0
  end.

(** [a & b] *)
Definition band (a b : Z) : Z := Z.land (ToInt32 a) (ToInt32 b).

(** [v & b] where [v] may be [undefined]. *)
Definition bandv (v : value) (b : Z) : Z := Z.land (ToInt32v v) (ToInt32 b).

(** [v > k] and [v < k]: a comparison with [undefined] is false. *)
Definition gt (v : value) (k : Z) : bool :=
  match v with
  | Num n => k <? n
  | Undefined => false
  end.

Definition lt (v : value) (k : Z) : bool :=
  match v with
  | Num n => n <? k
  | Undefined => false
  end.

(** [v === k] for a number literal [k]. *)
Definition strict_eq (v : value) (k : Z) : bool :=
  match v with
  | Num n => n =? k
  | Undefined => false
  end.

(** Truthiness of a number-or-undefined: [0] and [undefined] are falsy. *)
Definition truthy (v : value) : bool :=
  match v with
  | Num n => negb (n =? 0)
  | Undefined => false
  end.

(** ** Buffer *)

Definition Buffer : Type := list byte.

Definition byte_val (b : byte) : Z := Z.of_N (Byte.to_N b).

(** [data[i]] *)
Definition index (data : Buffer) (i : nat) : value :=
  match data !! i with
  | Some b => Num (byte_val b)
  | None => Undefined
  end.

(** [this[i]] inside a read whose bounds were checked. *)
Definition at_ (data : Buffer) (i : nat) : Z :=
  match data !! i with
  | Some b => byte_val b
  | None => 0
  end.

(** [checkOffset(offset, ext, length)]: throws when
    [offset + ext > length]. *)
Definition checkOffset (offset ext : nat) (data : Buffer) : completion unit :=
  if (length data <? offset + ext)%nat then RangeError else Normal tt.

(** [data.readUInt16LE(offset)]:
    [this[offset] | (this[offset + 1] << 8)] *)
Definition readUInt16LE (data : Buffer) (offset : nat) : completion Z :=
  bind (checkOffset offset 2 data) (fun _ =>
  Normal (Z.lor (at_ data offset) (Z.shiftl (at_ data (offset + 1)) 8))).

(** [data.readUInt32LE(offset)]:
    [((this[offset]) | (this[offset + 1] << 8) | (this[offset + 2] << 16))
     + (this[offset + 3] * 0x1000000)] *)
Definition readUInt32LE (data : Buffer) (offset : nat) : completion Z :=
  bind (checkOffset offset 4 data) (fun _ =>
  Normal (Z.lor (Z.lor (at_ data offset)
                       (Z.shiftl (at_ data (offset + 1)) 8))
                (Z.shiftl (at_ data (offset + 2)) 16)
          + at_ data (offset + 3) * 0x1000000)).

(** ** Arrays *)

(** [l.slice(-n)]: the last [n] elements, all of them when there are
    fewer. *)
Definition slice_last {A} (n : nat) (l : list A) : list A :=
  drop (length l - n) l.

(** ** Floating-point numbers *)

(** The number with the integral value [z] (exact for |z| <= 2^53). *)
Definition of_Z (z : Z) : float :=
  match z with
  | Z0 => 0%float
  | Zpos _ => PrimFloat.of_uint63 (Uint63.of_Z z)
  | Zneg p => PrimFloat.opp (PrimFloat.of_uint63 (Uint63.of_Z (Zpos p)))
  end.

(** [Math.floor(x)] of a finite number, as an integer. *)
Definition Math_floor (x : float) : Z :=
  match Prim2SF x with
  | S754_finite s m e =>
      if 0 <=? e then (if s then - (Zpos m * 2 ^ e) else Zpos m * 2 ^ e)
      else if s then - ((Zpos m + 2 ^ (- e) - 1) / 2 ^ (- e))
      else Zpos m / 2 ^ (- e)
  | _ => 0
  end.

(** [x.toFixed(2)] of a finite number: the integer [n] for which
    [n / 100 - x] is as close to zero as possible, the larger one when
    there are two; the string returned is [n] written with a point
    before its last two digits.  [toFixed2] gives [n]. *)
Definition toFixed2 (x : float) : Z :=
  match Prim2SF x with
  | S754_finite s m e =>
      let n := if 0 <=? e then 100 * Zpos m * 2 ^ e
               else (200 * Zpos m + 2 ^ (- e)) / 2 ^ (- e + 1) in
      if s then - n else n
  | _ => 0
  end.

(** [parseFloat] of the string [toFixed(2)] returned: the number nearest
    to [n / 100]. *)
Definition parseFloat2 (n : Z) : float := PrimFloat.div (of_Z n) (of_Z 100).

End JS.


(* ================================================================== *)
(** * Data model shared by the variants                                *)
(* ================================================================== *)

(** [dailyRecords]: [{ steps, avgHr, calories, distance }]. *)
Module Daily.
Record t : Type := mk {
  steps : Z;
  avgHr : Z;
  calories : Z;
  distance : float
}.
Definition zero : t := mk 0 0 0 0%float.
End Daily.

(** [weeklyStats]: [{ steps, calories, distance }]. *)
Module Weekly.
Record t : Type := mk {
  steps : Z;
  calories : Z;
  distance : float
}.
Definition zero : t := mk 0 0 0%float.
End Weekly.

(** An entry of [hrFluctuations]: [{ value, time }]. *)
Record Fluctuation : Type := {
  value : Z;
  time : string
}.

(** The part of a BLE [Device] the handlers read. *)
Record Device : Type := {
  id : string;
  name : string
}.

(** The object saved under [STORAGE_KEY].  The variants save
    [{ dailyRecords, hrHistory }] and, from "add weekly total" on,
    [hrFluctuations], and in "weekly reset" [weeklyStats] too; a field a
    variant does not write is absent. *)
Record SavedData : Type := {
  sd_dailyRecords : Daily.t;
  sd_hrHistory : list Z;
  sd_hrFluctuations : option (list Fluctuation);
  sd_weeklyStats : option Weekly.t
}.

(** What [AsyncStorage] holds under a key: the date string of the last
    reset, or the saved object ([JSON.stringify] and [JSON.parse] are
    inverse on these objects, so the object stands for its JSON text). *)
Inductive Stored : Type :=
| SDate (s : string)
| SJson (data : SavedData).

(** The part of a [Date] the reset check reads. *)
Record Date : Type := {
  toDateString : string;
  getDay : Z
}.

(** The component's state.  The variants declare subsets of the same
    [useState] cells; [App] lists their union, and a handler touches only
    the cells its variant declares.  Besides the React state it holds the
    [deviceRef] ref, the two resources a connection creates (the step
    timer of [setInterval] and the heart-rate monitor subscription, each
    live or not) and the contents of [AsyncStorage]. *)
Record App : Type := mkApp {
  bandSteps : Z;
  heartRate : Z;
  hrHistory : list Z;
  status : string;
  connectedDevice : option Device;
  dailyRecords : Daily.t;
  weeklyStats : Weekly.t;
  hrFluctuations : list Fluctuation;
  deviceRef : option Device;
  stepInterval : bool;
  hrSubscription : bool;
  storage : gmap string Stored
}.

(** The initial state: [useState] initial values, nothing connected,
    given storage contents. *)
Definition initial (store : gmap string Stored) : App :=
  mkApp 0 0 [0; 0; 0; 0; 0] "Ready" None Daily.zero Weekly.zero [] None
        false false store.

(** ** State setters *)

Definition setBandSteps (v : Z) (st : App) : App :=
  mkApp v (heartRate st) (hrHistory st) (status st) (connectedDevice st)
        (dailyRecords st) (weeklyStats st) (hrFluctuations st) (deviceRef st)
        (stepInterval st) (hrSubscription st) (storage st).

Definition setHeartRate (v : Z) (st : App) : App :=
  mkApp (bandSteps st) v (hrHistory st) (status st) (connectedDevice st)
        (dailyRecords st) (weeklyStats st) (hrFluctuations st) (deviceRef st)
        (stepInterval st) (hrSubscription st) (storage st).

Definition setHrHistory (f : list Z -> list Z) (st : App) : App :=
  mkApp (bandSteps st) (heartRate st) (f (hrHistory st)) (status st)
        (connectedDevice st) (dailyRecords st) (weeklyStats st)
        (hrFluctuations st) (deviceRef st) (stepInterval st)
        (hrSubscription st) (storage st).

Definition setStatus (v : string) (st : App) : App :=
  mkApp (bandSteps st) (heartRate st) (hrHistory st) v (connectedDevice st)
        (dailyRecords st) (weeklyStats st) (hrFluctuations st) (deviceRef st)
        (stepInterval st) (hrSubscription st) (storage st).

Definition setConnectedDevice (v : option Device) (st : App) : App :=
  mkApp (bandSteps st) (heartRate st) (hrHistory st) (status st) v
        (dailyRecords st) (weeklyStats st) (hrFluctuations st) (deviceRef st)
        (stepInterval st) (hrSubscription st) (storage st).

Definition setDailyRecords (f : Daily.t -> Daily.t) (st : App) : App :=
  mkApp (bandSteps st) (heartRate st) (hrHistory st) (status st)
        (connectedDevice st) (f (dailyRecords st)) (weeklyStats st)
        (hrFluctuations st) (deviceRef st) (stepInterval st)
        (hrSubscription st) (storage st).

Definition setWeeklyStats (v : Weekly.t) (st : App) : App :=
  mkApp (bandSteps st) (heartRate st) (hrHistory st) (status st)
        (connectedDevice st) (dailyRecords st) v (hrFluctuations st)
        (deviceRef st) (stepInterval st) (hrSubscription st) (storage st).

Definition setHrFluctuations (f : list Fluctuation -> list Fluctuation)
    (st : App) : App :=
  mkApp (bandSteps st) (heartRate st) (hrHistory st) (status st)
        (connectedDevice st) (dailyRecords st) (weeklyStats st)
        (f (hrFluctuations st)) (deviceRef st) (stepInterval st)
        (hrSubscription st) (storage st).

(** [deviceRef.current = v] *)
Definition setDeviceRef (v : option Device) (st : App) : App :=
  mkApp (bandSteps st) (heartRate st) (hrHistory st) (status st)
        (connectedDevice st) (dailyRecords st) (weeklyStats st)
        (hrFluctuations st) v (stepInterval st) (hrSubscription st)
        (storage st).

(** [setInterval] arms the step timer, [clearInterval] disarms it. *)
Definition setStepInterval (v : bool) (st : App) : App :=
  mkApp (bandSteps st) (heartRate st) (hrHistory st) (status st)
        (connectedDevice st) (dailyRecords st) (weeklyStats st)
        (hrFluctuations st) (deviceRef st) v (hrSubscription st) (storage st).

(** [monitorCharacteristicForService] registers the heart-rate listener,
    [subscription.remove()] releases it. *)
Definition setHrSubscription (v : bool) (st : App) : App :=
  mkApp (bandSteps st) (heartRate st) (hrHistory st) (status st)
        (connectedDevice st) (dailyRecords st) (weeklyStats st)
        (hrFluctuations st) (deviceRef st) (stepInterval st) v (storage st).

(** [AsyncStorage.setItem(key, v)] *)
Definition setItem (key : string) (v : Stored) (st : App) : App :=
  mkApp (bandSteps st) (heartRate st) (hrHistory st) (status st)
        (connectedDevice st) (dailyRecords st) (weeklyStats st)
        (hrFluctuations st) (deviceRef st) (stepInterval st)
        (hrSubscription st) (<[key := v]> (storage st)).

(** [AsyncStorage.getItem(key)] *)
Definition getItem (key : string) (st : App) : option Stored :=
  storage st !! key.

(** [lastReset !== todayStr] on what [getItem] returned. *)
Definition differs (lastReset : option Stored) (todayStr : string) : bool :=
  match lastReset with
  | Some (SDate s) => negb (String.eqb s todayStr)
  | _ => true
  end.

(** What the presentation layer reads: the telemetry cells, without the
    connection status, the session resources and the store. *)
Definition readModel (st : App)
  : Z * Z * list Z * list Fluctuation * Daily.t * Weekly.t :=
  (bandSteps st, heartRate st, hrHistory st, hrFluctuations st,
   dailyRecords st, weeklyStats st).

(** ** Expressions the variants share verbatim *)

(** [[...prev.slice(-9), bpm]] *)
Definition appendHistory {A} (prev : list A) (bpm : A) : list A :=
  JS.slice_last 9 prev ++ [bpm].

(** [[...prev.slice(-10), { value: bpm, time: timestamp }]] *)
Definition appendFluctuation (prev : list Fluctuation) (bpm : Z)
    (timestamp : string) : list Fluctuation :=
  JS.slice_last 10 prev ++ [{| value := bpm; time := timestamp |}].

(** [parseFloat(((count * 0.762) / 1000).toFixed(2))] *)
Definition distanceOf (count : Z) : float :=
  JS.parseFloat2
    (JS.toFixed2 (PrimFloat.div (PrimFloat.mul (JS.of_Z count) 0.762) 1000)).

(** [Math.floor(count * 0.045)] *)
Definition caloriesOf (count : Z) : Z :=
  JS.Math_floor (PrimFloat.mul (JS.of_Z count) 0.045).

(** [data.length >= 4 ? (data.readUInt32LE(1) & 0x00FFFFFF) : 0] *)
Definition decodeStepCount (data : JS.Buffer) : JS.completion Z :=
  if (4 <=? length data)%nat
  then JS.bind (JS.readUInt32LE data 1) (fun n => JS.Normal (JS.band n 0x00FFFFFF))
  else JS.Normal 0.

(** [data.length >= 2
       ? (data[0] === 0x16 ? data.readUInt16LE(1) : data[1]) : data[1]] *)
Definition decodeHeartRate_0x16 (data : JS.Buffer) : JS.completion JS.value :=
  if (2 <=? length data)%nat
  then if JS.strict_eq (JS.index data 0) 0x16
       then JS.bind (JS.readUInt16LE data 1) (fun n => JS.Normal (JS.Num n))
       else JS.Normal (JS.index data 1)
  else JS.Normal (JS.index data 1).

(** What a characteristic read of the step poll produced: [None] when the
    read was rejected (the [.catch(() => null)]), else the
    characteristic's [value] ([None] when it is null or empty). *)
Definition ReadResult : Type := option (option JS.Buffer).


(** ** The rest of the component's state *)

(** The cells beside the session's: the list of scanned devices, the
    scanning flag and the phone's step count. *)
Record Screen : Type := mkScreen {
  app : App;
  devices : list Device;
  isScanning : bool;
  googleSteps : Z
}.

Definition initialScreen (store : gmap string Stored) : Screen :=
  mkScreen (initial store) [] false 0.

(** A handler that touches the session's cells only. *)
Definition onApp (f : App -> App) (s : Screen) : Screen :=
  mkScreen (f (app s)) (devices s) (isScanning s) (googleSteps s).

Definition setDevices (f : list Device -> list Device) (s : Screen) : Screen :=
  mkScreen (app s) (f (devices s)) (isScanning s) (googleSteps s).

Definition setIsScanning (v : bool) (s : Screen) : Screen :=
  mkScreen (app s) (devices s) v (googleSteps s).

Definition setGoogleSteps (v : Z) (s : Screen) : Screen :=
  mkScreen (app s) (devices s) (isScanning s) v.

(** [device.name] is truthy: the peripheral advertises a name (a missing
    name is [null], which like the empty string is falsy; [Device] holds
    the empty string for it). *)
Definition named (device : Device) : bool :=
  negb (String.eqb (name device) "").

(** [prev.find(d => d.id === device.id) ? prev : [...prev, device]] *)
Definition addDevice (prev : list Device) (device : Device) : list Device :=
  match List.find (fun d => String.eqb (id d) (id device)) prev with
  | Some _ => prev
  | None => prev ++ [device]
  end.

(** One entry of what [GoogleFit.getDailyStepCountSamples] resolves to:
    [{ source, steps: [{ value }, ...] }], the samples by their values. *)
Module GoogleFit.
Record t : Type := mk {
  source : string;
  steps : list Z
}.
End GoogleFit.

(** [steps.reduce((sum, s) => sum + s.value, 0)] *)
Definition sumValues (steps : list Z) : Z :=
  fold_left (fun sum value => sum + value) steps 0.

(** [res.find((s) => s.source === source)] followed by
    [data?.steps.reduce(...) || 0], with
    [source = "com.google.android.gms:estimated_steps"]. *)
Definition estimatedTotal (res : list GoogleFit.t) : Z :=
  let source := "com.google.android.gms:estimated_steps" in
  match List.find (fun s => String.eqb (GoogleFit.source s) source) res with
  | Some data => sumValues (GoogleFit.steps data)
  | None => 0
  end.

(** The sample sets [estimatedTotal] looks for. *)
Definition isEstimated (s : GoogleFit.t) : bool :=
  String.eqb (GoogleFit.source s) "com.google.android.gms:estimated_steps".

(** [res?.[0]?.steps?.reduce(...) ?? 0] *)
Definition firstTotal (res : list GoogleFit.t) : Z :=
  match res with
  | first :: _ => sumValues (GoogleFit.steps first)
  | [] => 0
  end.

(** [savedData.hrHistory && savedData.hrHistory.length > 0
       ? savedData.hrHistory : [0, 0, 0, 0, 0]] *)
Definition loadedHistory (saved : list Z) : list Z :=
  match saved with
  | [] => [0; 0; 0; 0; 0]
  | _ :: _ => saved
  end.

(* ================================================================== *)
(** * Variant "stepchall- LT - weekly reset"                           *)
(* ================================================================== *)

Module WeeklyReset.

Definition STORAGE_KEY : string := "@health_data_v1".
Definition RESET_KEY : string := "@last_weekly_reset".

(** [checkWeeklyReset]: on a Monday whose date is not the stored marker,
    zero [weeklyStats], store the marker, and zero the [weeklyStats] of the
    saved object when there is one. *)
Definition checkWeeklyReset (now : Date) (st : App) : App :=
  let todayStr := toDateString now in
  let isMonday := getDay now =? 1 in
  let lastResetDate := getItem RESET_KEY st in
  if isMonday && differs lastResetDate todayStr then
    let resetStats := Weekly.zero in
    let st := setWeeklyStats resetStats st in
    let st := setItem RESET_KEY (SDate todayStr) st in
    match getItem STORAGE_KEY st with
    | Some (SJson data) =>
        setItem STORAGE_KEY
          (SJson {| sd_dailyRecords := sd_dailyRecords data;
                    sd_hrHistory := sd_hrHistory data;
                    sd_hrFluctuations := sd_hrFluctuations data;
                    sd_weeklyStats := Some resetStats |}) st
    | _ => st
    end
  else st.

(** [updateWeeklyStats]: [totalSteps = currentSteps * 7]. *)
Definition updateWeeklyStats (currentSteps : Z) (st : App) : App :=
  let totalSteps := currentSteps * 7 in
  setWeeklyStats
    {| Weekly.steps := totalSteps;
       Weekly.calories := caloriesOf totalSteps;
       Weekly.distance := distanceOf totalSteps |} st.

(** The object [saveData] and [handleManualSave] stringify. *)
Definition dataToSave (st : App) : SavedData :=
  {| sd_dailyRecords := dailyRecords st;
     sd_hrHistory := hrHistory st;
     sd_hrFluctuations := Some (hrFluctuations st);
     sd_weeklyStats := Some (weeklyStats st) |}.

(** The auto-save effect: [if (dailyRecords.steps > 0) saveData()]. *)
Definition autoSave (st : App) : App :=
  if 0 <? Daily.steps (dailyRecords st)
  then setItem STORAGE_KEY (SJson (dataToSave st)) st
  else st.

(** The body of the [if (bpm > 30 && bpm < 220)] block. *)
Definition acceptHeartRate (bpm : Z) (timestamp : string) (st : App) : App :=
  let st := setHeartRate bpm st in
  let st := setHrHistory (fun prev => appendHistory prev bpm) st in
  let st := setHrFluctuations
              (fun prev => appendFluctuation prev bpm timestamp) st in
  setDailyRecords
    (fun prev => Daily.mk (Daily.steps prev) bpm (Daily.calories prev)
                          (Daily.distance prev)) st.

(** The heart-rate monitor callback [(err, char) => ...]; [value] is
    [char?.value] decoded from base64, [timestamp] the clock reading.  A
    [RangeError] of the decode is caught and logged. *)
Definition onHeartRate (err : bool) (value : option JS.Buffer)
    (timestamp : string) (st : App) : App :=
  if err then st else
  match value with
  | None => st
  | Some data =>
      match decodeHeartRate_0x16 data with
      | JS.RangeError => st
      | JS.Normal bpm =>
          if JS.gt bpm 30 && JS.lt bpm 220 then
            match bpm with
            | JS.Num n => acceptHeartRate n timestamp st
            | JS.Undefined => st
            end
          else st
      end
  end.

(** The body of the [if (count > 0)] block. *)
Definition acceptSteps (count : Z) (st : App) : App :=
  let dist := distanceOf count in
  let cal := caloriesOf count in
  let st := setBandSteps count st in
  let st := setDailyRecords
              (fun prev => Daily.mk count (Daily.avgHr prev) cal dist) st in
  updateWeeklyStats count st.

(** One tick of the step timer.  [isConnected] is what
    [deviceRef.current.isConnected()] resolved to, [primary] and [alt] what
    the reads of the two step characteristics produced (the second is
    consulted only when the first gave no characteristic).  Any exception
    is caught and logged. *)
Definition onStepTick (isConnected : bool) (primary alt : ReadResult)
    (st : App) : App :=
  match deviceRef st with
  | None => st
  | Some _ =>
      if negb isConnected then st else
      let char := match primary with Some c => Some c | None => alt end in
      match char with
      | Some (Some data) =>
          match decodeStepCount data with
          | JS.RangeError => st
          | JS.Normal count => if 0 <? count then acceptSteps count st else st
          end
      | _ => st
      end
  end.

(** The [connected.onDisconnected] callback. *)
Definition onDisconnected (st : App) : App :=
  let st := setConnectedDevice None st in
  let st := setStatus "Disconnected" st in
  let st := setStepInterval false st in
  setHrSubscription false st.

(** [connectToDevice]; [linked] tells whether [device.connect] and the
    service discovery both resolved. *)
Definition connectToDevice (device : Device) (linked : bool) (st : App) : App :=
  let st := setStatus ("Syncing with " +:+ name device +:+ "...") st in
  if linked then
    let st := setDeviceRef (Some device) st in
    let st := setConnectedDevice (Some device) st in
    let st := setStatus "Connected" st in
    let st := setHrSubscription true st in
    setStepInterval true st
  else setStatus "Failed" st.

(** What the runtime can deliver to a session. *)
Inductive event : Type :=
| HeartRateNotification (err : bool) (value : option JS.Buffer)
    (timestamp : string)
| StepTimerTick (isConnected : bool) (primary alt : ReadResult)
| DisconnectEvent.

(** Delivery of one event: a released subscription's listener is not
    called and a cleared interval does not fire. *)
Definition dispatch (ev : event) (st : App) : App :=
  match ev with
  | HeartRateNotification err value timestamp =>
      if hrSubscription st then onHeartRate err value timestamp st else st
  | StepTimerTick isConnected primary alt =>
      if stepInterval st then onStepTick isConnected primary alt st else st
  | DisconnectEvent => onDisconnected st
  end.

(** An event followed by the auto-save effect.  React runs the effect
    after a render in which [dailyRecords], [hrHistory], [hrFluctuations]
    or [weeklyStats] changed; here it runs after every event, which
    writes the same object again when none of them changed. *)
Definition step (ev : event) (st : App) : App := autoSave (dispatch ev st).

(** The events of a list, delivered one after the other: a handler runs
    to its end before the next event is taken. *)
Definition run (evs : list event) (st : App) : App :=
  fold_left (fun s ev => step ev s) evs st.

(** The reset is due: the condition [checkWeeklyReset] tests. *)
Definition resetDue (now : Date) (st : App) : bool :=
  (getDay now =? 1) && differs (getItem RESET_KEY st) (toDateString now).

(** The number of resets performed when the check runs once after each of
    the given stretches of events, all on the date [now]. *)
Fixpoint resets (now : Date) (stretches : list (list event)) (st : App) : nat :=
  match stretches with
  | [] => 0%nat
  | evs :: rest =>
      let st1 := run evs st in
      ((if resetDue now st1 then 1 else 0)
       + resets now rest (checkWeeklyReset now st1))%nat
  end.

(** A session is being monitored: a device is connected and both inbound
    channels are live. *)
Definition monitoring (st : App) : Prop :=
  is_Some (connectedDevice st) /\ stepInterval st = true
  /\ hrSubscription st = true.


(** ** Persistence *)

(** [loadData]: the reset check first, then the saved object, if there is
    one, replaces the daily record, the history window (a saved empty
    window gives the initial one), the band step count and the
    fluctuation log; the weekly record is the saved one, or is derived
    from the saved step count when the object has none.  A stored text
    that is not a saved object makes [JSON.parse] throw, which is caught
    and logged. *)
Definition loadData (now : Date) (st : App) : App :=
  let st := checkWeeklyReset now st in
  match getItem STORAGE_KEY st with
  | Some (SJson savedData) =>
      let st := setDailyRecords (fun _ => sd_dailyRecords savedData) st in
      let st := setHrHistory (fun _ => loadedHistory (sd_hrHistory savedData)) st in
      let st := setBandSteps (Daily.steps (sd_dailyRecords savedData)) st in
      let st := setHrFluctuations
                  (fun _ => match sd_hrFluctuations savedData with
                            | Some log => log
                            | None => []
                            end) st in
      match sd_weeklyStats savedData with
      | Some weekly => setWeeklyStats weekly st
      | None => updateWeeklyStats (Daily.steps (sd_dailyRecords savedData)) st
      end
  | _ => st
  end.

(** [handleManualSave]: the save without the step-count condition. *)
Definition handleManualSave (st : App) : App :=
  setItem STORAGE_KEY (SJson (dataToSave st)) st.

(** ** Permissions, scanning, the phone's step count *)

(** [requestPermissions]; [granted] holds the permissions whose request
    came back [GRANTED]. *)
Definition requestPermissions (android : bool) (apiLevel : Z)
    (granted : gset string) : bool :=
  if android then
    if apiLevel <? 31
    then bool_decide ("android.permission.ACCESS_FINE_LOCATION" ∈ granted)
    else bool_decide ("android.permission.BLUETOOTH_SCAN" ∈ granted)
         && bool_decide ("android.permission.BLUETOOTH_CONNECT" ∈ granted)
  else true.

(** [startScan], up to the registration of the scan callback and of the
    six-second timeout. *)
Definition startScan (android : bool) (apiLevel : Z) (granted : gset string)
    (s : Screen) : Screen :=
  let hasPermission := requestPermissions android apiLevel granted in
  if negb hasPermission then onApp (setStatus "Permission Denied") s
  else if isScanning s then s
  else
    let s := setDevices (fun _ => []) s in
    let s := setIsScanning true s in
    onApp (setStatus "Scanning for Bands...") s.

(** The scan callback [(error, device) => ...]. *)
Definition onScanResult (error : bool) (device : option Device)
    (s : Screen) : Screen :=
  if error then onApp (setStatus "Scan Error") (setIsScanning false s)
  else
    match device with
    | Some device =>
        if named device then setDevices (fun prev => addDevice prev device) s
        else s
    | None => s
    end.

(** The timeout callback of [startScan]. *)
Definition onScanTimeout (s : Screen) : Screen :=
  onApp (setStatus "Scan Finished") (setIsScanning false s).

(** [resetBluetooth].  [connectedDevice.cancelConnection()] only asks for
    the disconnection: the [onDisconnected] callback runs when the
    disconnect event arrives. *)
Definition resetBluetooth (s : Screen) : Screen :=
  let s := onApp (setConnectedDevice None) s in
  let s := setDevices (fun _ => []) s in
  let s := onApp (setStatus "Bluetooth Reset") s in
  setIsScanning false s.

(** [fetchGoogleFitSteps]; [res] is [None] when the request was
    rejected, which is caught and logged. *)
Definition fetchGoogleFitSteps (isAuthorized : bool)
    (res : option (list GoogleFit.t)) (s : Screen) : Screen :=
  if negb isAuthorized then s
  else
    match res with
    | Some res => setGoogleSteps (estimatedTotal res) s
    | None => s
    end.

(** ** The component as a whole *)

(** Everything that can happen to the mounted component. *)
Inductive action : Type :=
| LoadData (now : Date)
| ManualSave
| StartScan (android : bool) (apiLevel : Z) (granted : gset string)
| ScanResult (error : bool) (device : option Device)
| ScanTimeout
| ResetBluetooth
| Connect (device : Device) (linked : bool)
| Deliver (ev : event)
| GoogleFitPoll (isAuthorized : bool) (res : option (list GoogleFit.t)).

(** One action.  The auto-save effect follows the two actions that can
    change the cells it depends on. *)
Definition perform (a : action) (s : Screen) : Screen :=
  match a with
  | LoadData now => onApp (fun st => autoSave (loadData now st)) s
  | ManualSave => onApp handleManualSave s
  | StartScan android apiLevel granted => startScan android apiLevel granted s
  | ScanResult error device => onScanResult error device s
  | ScanTimeout => onScanTimeout s
  | ResetBluetooth => resetBluetooth s
  | Connect device linked => onApp (connectToDevice device linked) s
  | Deliver ev => onApp (step ev) s
  | GoogleFitPoll isAuthorized res => fetchGoogleFitSteps isAuthorized res s
  end.

Definition performAll (acts : list action) (s : Screen) : Screen :=
  fold_left (fun s a => perform a s) acts s.

End WeeklyReset.

(* ================================================================== *)
(** * Variant "unnamed/part_002"                                       *)
(* ================================================================== *)

Module Part002.

Definition STORAGE_KEY : string := "@health_data_v1".

(** The object [saveData] stringifies: [{ dailyRecords, hrHistory }]. *)
Definition dataToSave (st : App) : SavedData :=
  {| sd_dailyRecords := dailyRecords st;
     sd_hrHistory := hrHistory st;
     sd_hrFluctuations := None;
     sd_weeklyStats := None |}.

(** The auto-save effect: [if (dailyRecords.steps > 0) saveData()]. *)
Definition autoSave (st : App) : App :=
  if 0 <? Daily.steps (dailyRecords st)
  then setItem STORAGE_KEY (SJson (dataToSave st)) st
  else st.

(** The body of the [if (bpm > 30 && bpm < 220)] block. *)
Definition acceptHeartRate (bpm : Z) (st : App) : App :=
  let st := setHeartRate bpm st in
  let st := setHrHistory (fun prev => appendHistory prev bpm) st in
  setDailyRecords
    (fun prev => Daily.mk (Daily.steps prev) bpm (Daily.calories prev)
                          (Daily.distance prev)) st.

(** The heart-rate monitor callback [(err, char) => ...]: [err] is not
    looked at. *)
Definition onHeartRate (value : option JS.Buffer) (st : App) : App :=
  match value with
  | None => st
  | Some data =>
      match decodeHeartRate_0x16 data with
      | JS.RangeError => st
      | JS.Normal bpm =>
          if JS.gt bpm 30 && JS.lt bpm 220 then
            match bpm with
            | JS.Num n => acceptHeartRate n st
            | JS.Undefined => st
            end
          else st
      end
  end.

(** The body of the [if (count > 0)] block. *)
Definition acceptSteps (count : Z) (st : App) : App :=
  let dist := distanceOf count in
  let cal := caloriesOf count in
  let st := setBandSteps count st in
  setDailyRecords
    (fun prev => Daily.mk count (Daily.avgHr prev) cal dist) st.

(** One tick of the step timer. *)
Definition onStepTick (primary alt : ReadResult) (st : App) : App :=
  match deviceRef st with
  | None => st
  | Some _ =>
      let char := match primary with Some c => Some c | None => alt end in
      match char with
      | Some (Some data) =>
          match decodeStepCount data with
          | JS.RangeError => st
          | JS.Normal count => if 0 <? count then acceptSteps count st else st
          end
      | _ => st
      end
  end.

(** The [connected.onDisconnected] callback: the monitor subscription is
    not kept by [connectToDevice], and is not released here. *)
Definition onDisconnected (st : App) : App :=
  let st := setConnectedDevice None st in
  let st := setStatus "Disconnected" st in
  setStepInterval false st.

(** [connectToDevice]; [linked] tells whether [device.connect] and the
    service discovery both resolved. *)
Definition connectToDevice (device : Device) (linked : bool) (st : App) : App :=
  let st := setStatus ("Syncing with " +:+ name device +:+ "...") st in
  if linked then
    let st := setDeviceRef (Some device) st in
    let st := setConnectedDevice (Some device) st in
    let st := setStatus "Connected" st in
    let st := setHrSubscription true st in
    setStepInterval true st
  else setStatus "Failed" st.

Inductive event : Type :=
| HeartRateNotification (value : option JS.Buffer)
| StepTimerTick (primary alt : ReadResult)
| DisconnectEvent.

Definition dispatch (ev : event) (st : App) : App :=
  match ev with
  | HeartRateNotification value =>
      if hrSubscription st then onHeartRate value st else st
  | StepTimerTick primary alt =>
      if stepInterval st then onStepTick primary alt st else st
  | DisconnectEvent => onDisconnected st
  end.

Definition step (ev : event) (st : App) : App := autoSave (dispatch ev st).


(** [loadData]: the saved object, if there is one, replaces the daily
    record, the history window and the band step count. *)
Definition loadData (st : App) : App :=
  match getItem STORAGE_KEY st with
  | Some (SJson savedData) =>
      let st := setDailyRecords (fun _ => sd_dailyRecords savedData) st in
      let st := setHrHistory (fun _ => loadedHistory (sd_hrHistory savedData)) st in
      setBandSteps (Daily.steps (sd_dailyRecords savedData)) st
  | _ => st
  end.

(** [handleManualSave]: the save without the step-count condition. *)
Definition handleManualSave (st : App) : App :=
  setItem STORAGE_KEY (SJson (dataToSave st)) st.

End Part002.

(* ================================================================== *)
(** * Variant "stepchall - LT - add weekly total"                      *)
(* ================================================================== *)

Module AddWeeklyTotal.

Definition STORAGE_KEY : string := "@health_data_v1".
Definition RESET_TRACKER_KEY : string := "@last_reset_date".

(** [handleWeeklyReset]: on a Monday whose date is not the stored marker,
    zero [weeklyStats], [dailyRecords] and [bandSteps] and store the
    marker. *)
Definition handleWeeklyReset (today : Date) (st : App) : App :=
  let isMonday := getDay today =? 1 in
  if isMonday then
    let todayString := toDateString today in
    let lastReset := getItem RESET_TRACKER_KEY st in
    if differs lastReset todayString then
      let st := setWeeklyStats Weekly.zero st in
      let st := setDailyRecords (fun _ => Daily.zero) st in
      let st := setBandSteps 0 st in
      setItem RESET_TRACKER_KEY (SDate todayString) st
    else st
  else st.

(** [updateWeeklyStats]: the weekly record is the current count and what
    the conversion formulas give for it. *)
Definition updateWeeklyStats (currentSteps : Z) (st : App) : App :=
  setWeeklyStats
    {| Weekly.steps := currentSteps;
       Weekly.calories := caloriesOf currentSteps;
       Weekly.distance := distanceOf currentSteps |} st.

(** The body of the [if (count > 0)] block. *)
Definition acceptSteps (count : Z) (st : App) : App :=
  let dist := distanceOf count in
  let cal := caloriesOf count in
  let st := setBandSteps count st in
  let st := setDailyRecords
              (fun prev => Daily.mk count (Daily.avgHr prev) cal dist) st in
  updateWeeklyStats count st.

(** One tick of the step timer. *)
Definition onStepTick (primary alt : ReadResult) (st : App) : App :=
  match deviceRef st with
  | None => st
  | Some _ =>
      let char := match primary with Some c => Some c | None => alt end in
      match char with
      | Some (Some data) =>
          match decodeStepCount data with
          | JS.RangeError => st
          | JS.Normal count => if 0 <? count then acceptSteps count st else st
          end
      | _ => st
      end
  end.

(** The object [saveData] stringifies:
    [{ dailyRecords, hrHistory, hrFluctuations }]. *)
Definition dataToSave (st : App) : SavedData :=
  {| sd_dailyRecords := dailyRecords st;
     sd_hrHistory := hrHistory st;
     sd_hrFluctuations := Some (hrFluctuations st);
     sd_weeklyStats := None |}.

(** The auto-save effect: [if (dailyRecords.steps > 0) saveData()]. *)
Definition autoSave (st : App) : App :=
  if 0 <? Daily.steps (dailyRecords st)
  then setItem STORAGE_KEY (SJson (dataToSave st)) st
  else st.

(** The reset is due: the two conditions [handleWeeklyReset] tests. *)
Definition resetDue (today : Date) (st : App) : bool :=
  (getDay today =? 1)
  && differs (getItem RESET_TRACKER_KEY st) (toDateString today).


(** [loadData]: the reset check first, then the saved object, if there is
    one, replaces the daily record, the history window, the band step
    count and the fluctuation log, and the weekly record is derived from
    the saved step count. *)
Definition loadData (today : Date) (st : App) : App :=
  let st := handleWeeklyReset today st in
  match getItem STORAGE_KEY st with
  | Some (SJson savedData) =>
      let st := setDailyRecords (fun _ => sd_dailyRecords savedData) st in
      let st := setHrHistory (fun _ => loadedHistory (sd_hrHistory savedData)) st in
      let st := setBandSteps (Daily.steps (sd_dailyRecords savedData)) st in
      let st := setHrFluctuations
                  (fun _ => match sd_hrFluctuations savedData with
                            | Some log => log
                            | None => []
                            end) st in
      updateWeeklyStats (Daily.steps (sd_dailyRecords savedData)) st
  | _ => st
  end.

(** [handleManualSave]: the save without the step-count condition. *)
Definition handleManualSave (st : App) : App :=
  setItem STORAGE_KEY (SJson (dataToSave st)) st.

End AddWeeklyTotal.

(* ================================================================== *)
(** * Variant "stepchall - LT- crash changes"                          *)
(* ================================================================== *)

Module CrashChanges.

(** [Math.floor(count * 0.04)] *)
Definition caloriesOf (count : Z) : Z :=
  JS.Math_floor (PrimFloat.mul (JS.of_Z count) 0.04).

(** One tick of the step timer: a single read, whose rejection is caught
    and logged; inside [if (data.length >= 4)] the count is decoded and
    applied as it is. *)
Definition onStepTick (read : ReadResult) (st : App) : App :=
  match read with
  | Some (Some data) =>
      if (4 <=? length data)%nat then
        match JS.readUInt32LE data 1 with
        | JS.RangeError => st
        | JS.Normal n =>
            let count := JS.band n 0x00FFFFFF in
            let dist := distanceOf count in
            let cal := caloriesOf count in
            let st := setBandSteps count st in
            setDailyRecords
              (fun prev => Daily.mk count (Daily.avgHr prev) cal dist) st
        end
      else st
  | _ => st
  end.


(** [data[0] === 0x16 ? (data.length > 2 ? data.readUInt16LE(1) : data[1])
                       : data[1]] *)
Definition decodeHeartRate (data : JS.Buffer) : JS.completion JS.value :=
  if JS.strict_eq (JS.index data 0) 0x16
  then if (2 <? length data)%nat
       then JS.bind (JS.readUInt16LE data 1) (fun n => JS.Normal (JS.Num n))
       else JS.Normal (JS.index data 1)
  else JS.Normal (JS.index data 1).

(** The heart-rate monitor callback: inside [if (data.length >= 1)], a
    truthy [bpm] becomes the heart rate, joins the history window and
    replaces [avgHr]. *)
Definition onHeartRate (value : option JS.Buffer) (st : App) : App :=
  match value with
  | None => st
  | Some data =>
      if (1 <=? length data)%nat then
        match decodeHeartRate data with
        | JS.RangeError => st
        | JS.Normal bpm =>
            if JS.truthy bpm then
              match bpm with
              | JS.Num n =>
                  let st := setHeartRate n st in
                  let st := setHrHistory (fun prev => appendHistory prev n) st in
                  setDailyRecords
                    (fun prev => Daily.mk (Daily.steps prev) n
                                          (Daily.calories prev)
                                          (Daily.distance prev)) st
              | JS.Undefined => st
              end
            else st
        end
      else st
  end.

End CrashChanges.

(* ================================================================== *)
(** * Variant "unnamed/part_000"                                       *)
(* ================================================================== *)

Module Part000.

(** The two cells the heart-rate callback writes; no filter stands before
    them, so either may come to hold [undefined]. *)
Record App : Type := mkApp {
  heartRate : JS.value;
  hrHistory : list JS.value
}.

(** [const flags = data[0]; const is16Bit = flags & 0x01;
     const bpm = is16Bit ? data.readUInt16LE(1) : data[1];] *)
Definition decodeHeartRate (data : JS.Buffer) : JS.completion JS.value :=
  let flags := JS.index data 0 in
  let is16Bit := JS.bandv flags 0x01 in
  if negb (is16Bit =? 0)
  then JS.bind (JS.readUInt16LE data 1) (fun n => JS.Normal (JS.Num n))
  else JS.Normal (JS.index data 1).

(** The monitor callback [(error, characteristic) => ...].  Nothing
    catches a [RangeError] of the read: the callback ends there, before
    either setter. *)
Definition onHeartRate (error : bool) (value : option JS.Buffer)
    (st : App) : App :=
  if error then st else
  match value with
  | None => st
  | Some data =>
      match decodeHeartRate data with
      | JS.RangeError => st
      | JS.Normal bpm => mkApp bpm (appendHistory (hrHistory st) bpm)
      end
  end.


(** [fetchSteps]: the new value of the [steps] cell.  Off Android the
    function returns at once; a rejected request ([res] is [None]) is
    caught and logged. *)
Definition fetchSteps (android : bool) (res : option (list GoogleFit.t))
    (steps : Z) : Z :=
  if negb android then steps
  else
    match res with
    | Some res => firstTotal res
    | None => steps
    end.

(** The scan callback's update of the device list: every reported device
    is added, named or not, unless its id is listed. *)
Definition onScanResult (error : bool) (device : option Device)
    (devices : list Device) : list Device :=
  if error then devices
  else
    match device with
    | Some device => addDevice devices device
    | None => devices
    end.

End Part000.

(** Octets as bytes, for writing frames down. *)
Definition mkbyte (z : Z) : byte :=
  match Byte.of_N (Z.to_N (z mod 256)) with
  | Some b => b
  | None => Byte.x00
  end.

(** The buffer holding the given octets. *)
Definition bytes (l : list Z) : JS.Buffer := mkbyte <$> l.

(** The little-endian unsigned integer a byte sequence denotes. *)
Fixpoint le_uint (bs : list byte) : Z :=
  match bs with
  | [] => 0
  | b :: rest => JS.byte_val b + 256 * le_uint rest
  end.

(* ================================================================== *)
(** * Well-formed states of the "weekly reset" component                *)
(* ================================================================== *)

(** A heart-rate cell holds its initial 0 or an accepted sample. *)
Definition bpmOk (v : Z) : Prop := v = 0 \/ 30 < v < 220.

(** A daily record whose step count fits 24 bits and whose derived
    metrics are the conversions of that count. *)
Definition recordOk (d : Daily.t) : Prop :=
  0 <= Daily.steps d < 2 ^ 24
  /\ Daily.calories d = caloriesOf (Daily.steps d)
  /\ Daily.distance d = distanceOf (Daily.steps d)
  /\ bpmOk (Daily.avgHr d).

(** A weekly record that is zero or derived from the given step count. *)
Definition weeklyOk (count : Z) (w : Weekly.t) : Prop :=
  w = Weekly.zero
  \/ w = Weekly.mk (count * 7) (caloriesOf (count * 7)) (distanceOf (count * 7)).

Definition historyOk (h : list Z) : Prop :=
  (length h <= 10)%nat /\ Forall bpmOk h.

Definition logOk (log : list Fluctuation) : Prop :=
  (length log <= 11)%nat /\ Forall (fun e => 30 < value e < 220) log.

Definition savedOk (data : SavedData) : Prop :=
  recordOk (sd_dailyRecords data)
  /\ historyOk (sd_hrHistory data)
  /\ (forall log, sd_hrFluctuations data = Some log -> logOk log)
  /\ (forall w, sd_weeklyStats data = Some w ->
        weeklyOk (Daily.steps (sd_dailyRecords data)) w).

Definition storeOk (store : gmap string Stored) : Prop :=
  forall data,
    store !! WeeklyReset.STORAGE_KEY = Some (SJson data) -> savedOk data.

Definition appOk (st : App) : Prop :=
  bandSteps st = Daily.steps (dailyRecords st)
  /\ recordOk (dailyRecords st)
  /\ weeklyOk (Daily.steps (dailyRecords st)) (weeklyStats st)
  /\ bpmOk (heartRate st)
  /\ historyOk (hrHistory st)
  /\ logOk (hrFluctuations st)
  /\ stepInterval st = hrSubscription st
  /\ storeOk (storage st).

Definition devicesOk (l : list Device) : Prop :=
  NoDup (id <$> l) /\ Forall (fun d => named d = true) l.

Definition screenOk (s : Screen) : Prop :=
  appOk (app s) /\ devicesOk (devices s).

(* ================================================================== *)
(** * Sample data                                                      *)
(* ================================================================== *)

Definition band : Device := {| id := "C4:7C:8D:6A:12:3F"; name := "Mi Band" |}.

Definition monday : Date :=
  {| toDateString := "Mon Oct 23 2023"; getDay := 1 |}.

(** A heart-rate frame with flags byte 0 and the value in one byte. *)
Definition hrFrame (bpm : Z) : JS.Buffer := bytes [0x00; bpm].

(** A five-byte step frame: a leading byte and the count, little-endian. *)
Definition stepFrame (count : Z) : JS.Buffer :=
  bytes [0x00; count mod 256; (count / 256) mod 256; (count / 65536) mod 256;
         0x00].

(** The state right after a fresh start and a successful connect. *)
Definition monitored : App :=
  WeeklyReset.connectToDevice band true (initial ∅).

(** A connected session whose daily record holds a reading of 5000 steps. *)
Definition walked : App :=
  WeeklyReset.onStepTick true (Some (Some (stepFrame 5000))) None monitored.

(** The same reading taken by the "crash changes" poll. *)
Definition crashWalked : App :=
  CrashChanges.onStepTick (Some (Some (stepFrame 5000))) (initial ∅).

(** The state after both reset checks ran on a Monday. *)
Definition resetDone : App :=
  AddWeeklyTotal.handleWeeklyReset monday
    (WeeklyReset.checkWeeklyReset monday walked).

(** A short life of the component: mount, connect, one heart-rate
    notification, one step poll. *)
Definition sampleRun : list WeeklyReset.action :=
  [WeeklyReset.LoadData monday;
   WeeklyReset.Connect band true;
   WeeklyReset.Deliver
     (WeeklyReset.HeartRateNotification false (Some (hrFrame 72)) "10:00");
   WeeklyReset.Deliver
     (WeeklyReset.StepTimerTick true (Some (Some (stepFrame 5000))) None)].

(* ================================================================== *)
(** * Facts about the JavaScript operations                            *)
(* ================================================================== *)

Section JSFacts.

Lemma byte_val_range (b : byte) : 0 <= JS.byte_val b < 256.
Proof.
  unfold JS.byte_val. pose proof (Byte.to_N_bounded b). lia.
Qed.

Lemma ToInt32_small (z : Z) : - 2 ^ 31 <= z < 2 ^ 31 -> JS.ToInt32 z = z.
Proof.
  intros Hz. unfold JS.ToInt32. rewrite Z.mod_small; lia.
Qed.

Lemma land_shiftl_small (a b k : Z) :
  0 <= a < 2 ^ k -> 0 <= k -> Z.land a (Z.shiftl b k) = 0.
Proof.
  intros Ha Hk. apply Z.bits_inj'. intros n Hn.
  rewrite Z.land_spec, Z.bits_0.
  destruct (Z.lt_ge_cases n k).
  - rewrite (Z.shiftl_spec_low b k n) by lia. apply andb_false_r.
  - destruct (Z.eq_dec a 0) as [->|Hne]; [now rewrite Z.bits_0|].
    rewrite (Z.bits_above_log2 a n); [reflexivity|lia|].
    apply Z.log2_lt_pow2; try lia.
    apply Z.lt_le_trans with (2 ^ k); [lia|].
    apply Z.pow_le_mono_r; lia.
Qed.

(** [a | (b << k)] adds when [a] fits below bit [k]. *)
Lemma lor_shiftl_add (a b k : Z) :
  0 <= a < 2 ^ k -> 0 <= k -> Z.lor a (Z.shiftl b k) = a + b * 2 ^ k.
Proof.
  intros Ha Hk.
  pose proof (Z.add_lor_land a (Z.shiftl b k)) as H.
  rewrite land_shiftl_small in H by assumption.
  rewrite Z.shiftl_mul_pow2 in H |- * by lia. lia.
Qed.

(** [x & 0x00FFFFFF] keeps the low 24 bits of a non-negative integer that
    a 32-bit read can return. *)
Lemma band_low24 (x : Z) : JS.band x 0x00FFFFFF = x mod 2 ^ 24.
Proof.
  unfold JS.band.
  rewrite (ToInt32_small 0x00FFFFFF) by lia.
  change 0x00FFFFFF with (Z.ones 24).
  rewrite Z.land_ones by lia.
  unfold JS.ToInt32.
  replace ((x + 2 ^ 31) mod 2 ^ 32 - 2 ^ 31)
    with (x + (- ((x + 2 ^ 31) / 2 ^ 32) * 2 ^ 8) * 2 ^ 24).
  - apply Z.mod_add. lia.
  - pose proof (Z.div_mod (x + 2 ^ 31) (2 ^ 32)). lia.
Qed.

(** [v & 0x01] of a byte is its bit 0. *)
Lemma bandv_bit0 (b : byte) :
  JS.bandv (JS.Num (JS.byte_val b)) 0x01
  = if Z.testbit (JS.byte_val b) 0 then 1 else 0.
Proof.
  pose proof (byte_val_range b) as Hb.
  unfold JS.bandv, JS.ToInt32v.
  rewrite !ToInt32_small by lia.
  change 1 with (Z.ones 1) at 1.
  rewrite Z.land_ones by lia.
  rewrite <- Z.bit0_mod.
  now destruct (Z.testbit (JS.byte_val b) 0).
Qed.

(** A 16-bit read inside the buffer gives the little-endian value of the
    two bytes at the offset. *)
Lemma readUInt16LE_1 (f b1 b2 : byte) (rest : list byte) :
  JS.readUInt16LE (f :: b1 :: b2 :: rest) 1 = JS.Normal (le_uint [b1; b2]).
Proof.
  pose proof (byte_val_range b1). pose proof (byte_val_range b2).
  unfold JS.readUInt16LE, JS.checkOffset, JS.bind, JS.at_. cbn.
  f_equal. rewrite lor_shiftl_add by lia. lia.
Qed.

(** A 32-bit read at offset 1 needs five bytes. *)
Lemma readUInt32LE_1 (b0 b1 b2 b3 b4 : byte) (rest : list byte) :
  JS.readUInt32LE (b0 :: b1 :: b2 :: b3 :: b4 :: rest) 1
  = JS.Normal (le_uint [b1; b2; b3; b4]).
Proof.
  pose proof (byte_val_range b1). pose proof (byte_val_range b2).
  pose proof (byte_val_range b3). pose proof (byte_val_range b4).
  unfold JS.readUInt32LE, JS.checkOffset, JS.bind, JS.at_. cbn.
  f_equal. rewrite (lor_shiftl_add (JS.byte_val b1)) by lia.
  rewrite lor_shiftl_add by lia. lia.
Qed.

Lemma readUInt32LE_short (data : JS.Buffer) (offset : nat) :
  (length data < offset + 4)%nat -> JS.readUInt32LE data offset = JS.RangeError.
Proof.
  intros H. unfold JS.readUInt32LE, JS.checkOffset.
  destruct (Nat.ltb_spec (length data) (offset + 4)); [reflexivity | lia].
Qed.

(** [slice(-n)] never returns more than [n] elements and returns the whole
    array when it has no more than [n]. *)
Lemma slice_last_length {A} (n : nat) (l : list A) :
  length (JS.slice_last n l) = Nat.min n (length l).
Proof.
  unfold JS.slice_last. rewrite length_drop. lia.
Qed.

Lemma slice_last_all {A} (n : nat) (l : list A) :
  (length l <= n)%nat -> JS.slice_last n l = l.
Proof.
  intros H. unfold JS.slice_last.
  replace (length l - n)%nat with 0%nat by lia. reflexivity.
Qed.

End JSFacts.

(* ================================================================== *)
(** * The frame decoders                                               *)
(* ================================================================== *)

Section Decoders.

(** ** Heart rate *)

(** In "part_000" the width of the value follows bit 0 of the flags byte:
    with the bit set and three bytes or more, the value is the
    little-endian 16-bit integer at offset 1. *)
Lemma part000_decode_16bit (f b1 b2 : byte) (rest : list byte) :
  Z.testbit (JS.byte_val f) 0 = true ->
  Part000.decodeHeartRate (f :: b1 :: b2 :: rest)
  = JS.Normal (JS.Num (le_uint [b1; b2])).
Proof.
  intros Hbit. unfold Part000.decodeHeartRate, JS.index. cbn [lookup list_lookup].
  rewrite bandv_bit0, Hbit. cbn [Z.eqb negb].
  now rewrite readUInt16LE_1.
Qed.

(** With the bit clear and two bytes or more, it is the byte at offset 1. *)
Lemma part000_decode_8bit (f b1 : byte) (rest : list byte) :
  Z.testbit (JS.byte_val f) 0 = false ->
  Part000.decodeHeartRate (f :: b1 :: rest)
  = JS.Normal (JS.Num (JS.byte_val b1)).
Proof.
  intros Hbit. unfold Part000.decodeHeartRate, JS.index. cbn [lookup list_lookup].
  now rewrite bandv_bit0, Hbit.
Qed.

(** From "crash changes" on, the decoder compares the whole flags byte
    with 0x16 instead: a flags byte other than 0x16 always selects the
    single byte at offset 1, whatever its bit 0. *)
Lemma decode_0x16_other_flags (f b1 : byte) (rest : list byte) :
  JS.byte_val f <> 0x16 ->
  decodeHeartRate_0x16 (f :: b1 :: rest) = JS.Normal (JS.Num (JS.byte_val b1)).
Proof.
  intros Hf. unfold decodeHeartRate_0x16, JS.index, JS.strict_eq. cbn.
  destruct (Z.eqb_spec (JS.byte_val f) 22); [contradiction | reflexivity].
Qed.

(** C1.  The decoder of the "weekly reset" variant (shared with
    "part_002" and "add weekly total") does not select the width from
    bit 0.  On the frame [01 2C 01], whose bit 0 is set and whose 16-bit
    value at offset 1 is 300, it returns the byte 0x2C = 44; on the frame
    [16 48 03], whose bit 0 is clear and whose byte at offset 1 is 72, it
    returns the 16-bit value 840.  The decoder of "part_000" returns 300
    and 72 on the same frames. *)
Theorem hr_width_selected_by_0x16 :
  Z.testbit (JS.byte_val (mkbyte 0x01)) 0 = true
  /\ le_uint (bytes [0x2C; 0x01]) = 300
  /\ decodeHeartRate_0x16 (bytes [0x01; 0x2C; 0x01]) = JS.Normal (JS.Num 44)
  /\ Part000.decodeHeartRate (bytes [0x01; 0x2C; 0x01]) = JS.Normal (JS.Num 300)
  /\ Z.testbit (JS.byte_val (mkbyte 0x16)) 0 = false
  /\ decodeHeartRate_0x16 (bytes [0x16; 0x48; 0x03]) = JS.Normal (JS.Num 840)
  /\ Part000.decodeHeartRate (bytes [0x16; 0x48; 0x03]) = JS.Normal (JS.Num 72).
Proof.
  repeat split; vm_compute; reflexivity.
Qed.

(** ** Step count *)

(** With five bytes or more the step decoder returns the low 24 bits of
    the 32-bit read, that is the little-endian value of bytes 1 to 3. *)
Lemma step_decode_five_bytes (b0 b1 b2 b3 b4 : byte) (rest : list byte) :
  decodeStepCount (b0 :: b1 :: b2 :: b3 :: b4 :: rest)
  = JS.Normal (le_uint [b1; b2; b3]).
Proof.
  pose proof (byte_val_range b1). pose proof (byte_val_range b2).
  pose proof (byte_val_range b3).
  unfold decodeStepCount. cbn [length Nat.leb].
  rewrite readUInt32LE_1. cbn [JS.bind]. f_equal.
  rewrite band_low24. cbn [le_uint].
  replace (JS.byte_val b1 +
           256 * (JS.byte_val b2 +
                  256 * (JS.byte_val b3 + 256 * (JS.byte_val b4 + 256 * 0))))
    with (JS.byte_val b1 + 256 * (JS.byte_val b2 + 256 * JS.byte_val b3)
          + JS.byte_val b4 * 2 ^ 24) by lia.
  rewrite Z.mod_add by lia. rewrite Z.mod_small; lia.
Qed.

(** With fewer than four bytes the decoder yields 0. *)
Lemma step_decode_short (data : JS.Buffer) :
  (length data < 4)%nat -> decodeStepCount data = JS.Normal 0.
Proof.
  intros H. unfold decodeStepCount.
  destruct (Nat.leb_spec 4 (length data)); [lia | reflexivity].
Qed.

(** With exactly four bytes the guard [data.length >= 4] lets the buffer
    through and the 32-bit read at offset 1 throws. *)
Lemma step_decode_four_bytes (data : JS.Buffer) :
  length data = 4%nat -> decodeStepCount data = JS.RangeError.
Proof.
  intros H. unfold decodeStepCount. rewrite H. cbn [Nat.leb].
  rewrite readUInt32LE_short by (rewrite H; lia). reflexivity.
Qed.

(** C2.  On the four-byte buffer [00 64 00 00] the step decoder does not
    return 100: [readUInt32LE(1)] throws a [RangeError], which the poll
    tick catches, so the state is left as it was.  The same count in a
    five-byte buffer decodes to 100. *)
Theorem step_decode_four_byte_frame_throws :
  decodeStepCount (bytes [0x00; 0x64; 0x00; 0x00]) = JS.RangeError
  /\ decodeStepCount (bytes [0x00; 0x64; 0x00; 0x00; 0x00]) = JS.Normal 100
  /\ forall (st : App) (isConnected : bool) (alt : ReadResult),
       WeeklyReset.onStepTick isConnected
         (Some (Some (bytes [0x00; 0x64; 0x00; 0x00]))) alt st = st
       /\ Part002.onStepTick
            (Some (Some (bytes [0x00; 0x64; 0x00; 0x00]))) alt st = st.
Proof.
  split; [reflexivity | split; [reflexivity |]].
  intros st isConnected alt.
  unfold WeeklyReset.onStepTick, Part002.onStepTick.
  destruct (deviceRef st), isConnected; split; reflexivity.
Qed.

End Decoders.

(* ================================================================== *)
(** * Heart-rate samples                                               *)
(* ================================================================== *)

Section HeartRate.

(** What the callbacks do with a frame that decodes to a number. *)
Lemma weeklyReset_onHeartRate_decoded (data : JS.Buffer) (bpm : Z)
    (timestamp : string) (st : App) :
  decodeHeartRate_0x16 data = JS.Normal (JS.Num bpm) ->
  WeeklyReset.onHeartRate false (Some data) timestamp st
  = if (30 <? bpm) && (bpm <? 220)
    then WeeklyReset.acceptHeartRate bpm timestamp st else st.
Proof.
  intros Hdec. unfold WeeklyReset.onHeartRate. rewrite Hdec. reflexivity.
Qed.

Lemma part002_onHeartRate_decoded (data : JS.Buffer) (bpm : Z) (st : App) :
  decodeHeartRate_0x16 data = JS.Normal (JS.Num bpm) ->
  Part002.onHeartRate (Some data) st
  = if (30 <? bpm) && (bpm <? 220)
    then Part002.acceptHeartRate bpm st else st.
Proof.
  intros Hdec. unfold Part002.onHeartRate. rewrite Hdec. reflexivity.
Qed.

(** A frame that decodes to [undefined] or makes the read throw changes
    nothing. *)
Lemma weeklyReset_onHeartRate_undecoded (data : JS.Buffer)
    (timestamp : string) (st : App) :
  decodeHeartRate_0x16 data = JS.Normal JS.Undefined
  \/ decodeHeartRate_0x16 data = JS.RangeError ->
  WeeklyReset.onHeartRate false (Some data) timestamp st = st.
Proof.
  intros [Hdec | Hdec]; unfold WeeklyReset.onHeartRate; now rewrite Hdec.
Qed.

(** C4, as the code has it.  For a frame that decodes to the number
    [bpm], the sample is accepted exactly when [30 < bpm < 220], both
    bounds excluded.  An accepted sample becomes the current heart rate,
    is appended to the history window and replaces [dailyRecords.avgHr];
    for any other [bpm] the whole state, history window and daily record
    included, is left as it was.  This holds for the callbacks of
    "weekly reset" and of "part_002". *)
Theorem hr_sample_accepted_strictly_between_30_and_220
    (data : JS.Buffer) (bpm : Z) (timestamp : string) (st : App) :
  decodeHeartRate_0x16 data = JS.Normal (JS.Num bpm) ->
  (30 < bpm < 220 ->
     let st1 := WeeklyReset.onHeartRate false (Some data) timestamp st in
     let st2 := Part002.onHeartRate (Some data) st in
     heartRate st1 = bpm
     /\ hrHistory st1 = appendHistory (hrHistory st) bpm
     /\ Daily.avgHr (dailyRecords st1) = bpm
     /\ heartRate st2 = bpm
     /\ hrHistory st2 = appendHistory (hrHistory st) bpm
     /\ Daily.avgHr (dailyRecords st2) = bpm)
  /\ (~ 30 < bpm < 220 ->
        WeeklyReset.onHeartRate false (Some data) timestamp st = st
        /\ Part002.onHeartRate (Some data) st = st).
Proof.
  intros Hdec.
  rewrite (weeklyReset_onHeartRate_decoded _ _ _ _ Hdec).
  rewrite (part002_onHeartRate_decoded _ _ _ Hdec).
  split.
  - intros [Hlo Hhi].
    apply Z.ltb_lt in Hlo, Hhi. rewrite Hlo, Hhi. cbn.
    repeat split.
  - intros Hout.
    destruct (Z.ltb_spec 30 bpm), (Z.ltb_spec bpm 220); cbn; try lia; auto.
Qed.

Lemma hr_sample_accepted_strictly_between_30_and_220_witness :
  (30 < 72 < 220 ->
     let st1 := WeeklyReset.onHeartRate false (Some (hrFrame 72)) "10:00"
                  monitored in
     let st2 := Part002.onHeartRate (Some (hrFrame 72)) monitored in
     heartRate st1 = 72
     /\ hrHistory st1 = appendHistory (hrHistory monitored) 72
     /\ Daily.avgHr (dailyRecords st1) = 72
     /\ heartRate st2 = 72
     /\ hrHistory st2 = appendHistory (hrHistory monitored) 72
     /\ Daily.avgHr (dailyRecords st2) = 72)
  /\ (~ 30 < 72 < 220 ->
        WeeklyReset.onHeartRate false (Some (hrFrame 72)) "10:00" monitored
        = monitored
        /\ Part002.onHeartRate (Some (hrFrame 72)) monitored = monitored).
Proof.
  apply (hr_sample_accepted_strictly_between_30_and_220
           (hrFrame 72) 72 "10:00" monitored).
  reflexivity.
Defined.

(** C4, as the specification words it, fails at both ends of the range.
    The frames [00 1E] and [00 DC] decode to 30 and 220, which lie in
    [30, 220], and the callback discards both: heart rate, history window
    and [avgHr] keep their initial values. *)
Lemma hr_bounds_30_and_220_are_discarded :
  decodeHeartRate_0x16 (hrFrame 30) = JS.Normal (JS.Num 30)
  /\ decodeHeartRate_0x16 (hrFrame 220) = JS.Normal (JS.Num 220)
  /\ (30 <= 30 <= 220) /\ (30 <= 220 <= 220)
  /\ WeeklyReset.onHeartRate false (Some (hrFrame 30)) "10:00" monitored
     = monitored
  /\ WeeklyReset.onHeartRate false (Some (hrFrame 220)) "10:00" monitored
     = monitored
  /\ Part002.onHeartRate (Some (hrFrame 30)) monitored = monitored
  /\ heartRate monitored = 0
  /\ hrHistory monitored = [0; 0; 0; 0; 0]
  /\ Daily.avgHr (dailyRecords monitored) = 0.
Proof.
  repeat split; try reflexivity; lia.
Qed.

End HeartRate.

(* ================================================================== *)
(** * The heart-rate history window                                    *)
(* ================================================================== *)

Section HistoryWindow.

Context {A : Type}.

Lemma appendHistory_length (w : list A) (x : A) :
  length (appendHistory w x) = Nat.min 10 (length w + 1).
Proof.
  unfold appendHistory. rewrite length_app, slice_last_length.
  cbn [length]. lia.
Qed.

(** Below capacity nothing is evicted. *)
Lemma appendHistory_below_capacity (w : list A) (x : A) :
  (length w < 10)%nat -> appendHistory w x = w ++ [x].
Proof.
  intros H. unfold appendHistory. rewrite slice_last_all by lia. reflexivity.
Qed.

(** At capacity the oldest element, and only it, is evicted. *)
Lemma appendHistory_at_capacity (w : list A) (x : A) :
  length w = 10%nat -> appendHistory w x = drop 1 w ++ [x].
Proof.
  intros H. unfold appendHistory, JS.slice_last. now rewrite H.
Qed.

(** The newest sample is always the last element. *)
Lemma appendHistory_last (w : list A) (x : A) :
  last (appendHistory w x) = Some x.
Proof.
  unfold appendHistory. apply last_snoc.
Qed.

End HistoryWindow.

(** C9.  The history window is a FIFO of capacity 10.  An accepted sample
    is appended at the end ("weekly reset", "part_002") and so is every
    decoded sample of "part_000"; a window never grows beyond 10
    elements; below 10 elements nothing is dropped; at 10 elements the
    oldest one is dropped.  Feeding the frames of 60, 65, ..., 110 bpm to
    the callback leaves exactly the last ten values, 60 evicted. *)
Theorem history_window_fifo_capacity_10 :
  (forall (bpm : Z) (timestamp : string) (st : App),
      hrHistory (WeeklyReset.acceptHeartRate bpm timestamp st)
      = appendHistory (hrHistory st) bpm
      /\ hrHistory (Part002.acceptHeartRate bpm st)
         = appendHistory (hrHistory st) bpm)
  /\ (forall (data : JS.Buffer) (bpm : JS.value) (st : Part000.App),
         Part000.decodeHeartRate data = JS.Normal bpm ->
         Part000.hrHistory (Part000.onHeartRate false (Some data) st)
         = appendHistory (Part000.hrHistory st) bpm)
  /\ (forall (w : list Z) (bpm : Z),
         (length (appendHistory w bpm) <= 10)%nat
         /\ last (appendHistory w bpm) = Some bpm
         /\ ((length w < 10)%nat -> appendHistory w bpm = w ++ [bpm])
         /\ (length w = 10%nat -> appendHistory w bpm = drop 1 w ++ [bpm]))
  /\ fold_left appendHistory [60; 65; 70; 75; 80; 85; 90; 95; 100; 105; 110] []
     = [65; 70; 75; 80; 85; 90; 95; 100; 105; 110]
  /\ hrHistory
       (fold_left
          (fun st bpm =>
             WeeklyReset.onHeartRate false (Some (hrFrame bpm)) "10:00" st)
          [60; 65; 70; 75; 80; 85; 90; 95; 100; 105; 110] monitored)
     = [65; 70; 75; 80; 85; 90; 95; 100; 105; 110].
Proof.
  split; [| split; [| split; [| split]]].
  - intros bpm timestamp st. split; reflexivity.
  - intros data bpm st Hdec. unfold Part000.onHeartRate. now rewrite Hdec.
  - intros w bpm. split; [| split; [| split]].
    + rewrite appendHistory_length. lia.
    + apply appendHistory_last.
    + apply appendHistory_below_capacity.
    + apply appendHistory_at_capacity.
  - reflexivity.
  - vm_compute. reflexivity.
Qed.

Lemma history_window_fifo_capacity_10_witness :
  Part000.hrHistory
    (Part000.onHeartRate false (Some (hrFrame 72))
       (Part000.mkApp (JS.Num 0) [JS.Num 60; JS.Num 61]))
  = appendHistory [JS.Num 60; JS.Num 61] (JS.Num 72)
  /\ appendHistory [1; 2; 3] 4 = [1; 2; 3] ++ [4]
  /\ appendHistory [1; 2; 3; 4; 5; 6; 7; 8; 9; 10] 11
     = drop 1 [1; 2; 3; 4; 5; 6; 7; 8; 9; 10] ++ [11].
Proof.
  destruct history_window_fifo_capacity_10 as (_ & H000 & Hwin & _).
  split; [| split].
  - apply (H000 (hrFrame 72) (JS.Num 72)). reflexivity.
  - apply (Hwin [1; 2; 3] 4). cbn. lia.
  - apply (Hwin [1; 2; 3; 4; 5; 6; 7; 8; 9; 10] 11). reflexivity.
Defined.

(* ================================================================== *)
(** * Step readings                                                    *)
(* ================================================================== *)

Section StepReadings.

(** What the guarded polls do with a frame that decodes to [count]. *)
Lemma weeklyReset_onStepTick_decoded (data : JS.Buffer) (count : Z)
    (alt : ReadResult) (st : App) :
  is_Some (deviceRef st) ->
  decodeStepCount data = JS.Normal count ->
  WeeklyReset.onStepTick true (Some (Some data)) alt st
  = if 0 <? count then WeeklyReset.acceptSteps count st else st.
Proof.
  intros [d Hd] Hdec. unfold WeeklyReset.onStepTick.
  rewrite Hd, Hdec. reflexivity.
Qed.

Lemma addWeeklyTotal_onStepTick_decoded (data : JS.Buffer) (count : Z)
    (alt : ReadResult) (st : App) :
  is_Some (deviceRef st) ->
  decodeStepCount data = JS.Normal count ->
  AddWeeklyTotal.onStepTick (Some (Some data)) alt st
  = if 0 <? count then AddWeeklyTotal.acceptSteps count st else st.
Proof.
  intros [d Hd] Hdec. unfold AddWeeklyTotal.onStepTick.
  rewrite Hd, Hdec. reflexivity.
Qed.

(** In the variants that guard with [if (count > 0)], a reading that
    decodes to 0 changes nothing. *)
Lemma guarded_polls_discard_zero (data : JS.Buffer) (isConnected : bool)
    (alt : ReadResult) (st : App) :
  decodeStepCount data = JS.Normal 0 ->
  WeeklyReset.onStepTick isConnected (Some (Some data)) alt st = st
  /\ Part002.onStepTick (Some (Some data)) alt st = st
  /\ AddWeeklyTotal.onStepTick (Some (Some data)) alt st = st.
Proof.
  intros Hdec.
  unfold WeeklyReset.onStepTick, Part002.onStepTick,
    AddWeeklyTotal.onStepTick.
  rewrite Hdec. destruct (deviceRef st), isConnected; auto.
Qed.

(** An accepted reading replaces the daily step count and recomputes the
    two derived metrics from it. *)
Lemma accepted_reading_daily_record (count : Z) (st : App) :
  dailyRecords (WeeklyReset.acceptSteps count st)
  = Daily.mk count (Daily.avgHr (dailyRecords st)) (caloriesOf count)
             (distanceOf count)
  /\ dailyRecords (Part002.acceptSteps count st)
     = dailyRecords (WeeklyReset.acceptSteps count st)
  /\ dailyRecords (AddWeeklyTotal.acceptSteps count st)
     = dailyRecords (WeeklyReset.acceptSteps count st).
Proof.
  repeat split.
Qed.

(** C5.  The calorie factor is not the same in every variant.  For a
    reading of 5000 steps the poll of "crash changes" stores
    [Math.floor(5000 * 0.04) = 200] calories, where the polls of
    "weekly reset", "part_002" and "add weekly total" store
    [Math.floor(5000 * 0.045) = 225]; all of them store the distance
    3.81. *)
Theorem crash_changes_calories_use_factor_0_04 :
  decodeStepCount (stepFrame 5000) = JS.Normal 5000
  /\ dailyRecords crashWalked = Daily.mk 5000 0 200 3.81%float
  /\ dailyRecords walked = Daily.mk 5000 0 225 3.81%float
  /\ dailyRecords (Part002.acceptSteps 5000 monitored)
     = Daily.mk 5000 0 225 3.81%float
  /\ dailyRecords (AddWeeklyTotal.acceptSteps 5000 monitored)
     = Daily.mk 5000 0 225 3.81%float.
Proof.
  repeat split; vm_compute; reflexivity.
Qed.

(** The distance is rounded by [toFixed(2)] from the binary64 quotient
    [(count * 0.762) / 1000]: for 7500 steps, where the exact product
    7500 * 0.000762 is 5.715, the stored distance is 5.71. *)
Remark distance_rounds_the_binary64_quotient :
  distanceOf 7500 = 5.71%float /\ distanceOf 2500 = 1.91%float.
Proof.
  split; vm_compute; reflexivity.
Qed.

(** C7.  The poll of "crash changes" has no [if (count > 0)] guard: a
    reading that decodes to 0 is applied.  After a reading of 5000 steps,
    the frame [00 00 00 00 00] sets the band step count and the daily
    record's steps, calories and distance to 0, where the poll of
    "weekly reset" leaves the state untouched. *)
Theorem crash_changes_applies_zero_reading :
  decodeStepCount (stepFrame 0) = JS.Normal 0
  /\ bandSteps crashWalked = 5000
  /\ dailyRecords crashWalked = Daily.mk 5000 0 200 3.81%float
  /\ bandSteps (CrashChanges.onStepTick (Some (Some (stepFrame 0))) crashWalked)
     = 0
  /\ dailyRecords
       (CrashChanges.onStepTick (Some (Some (stepFrame 0))) crashWalked)
     = Daily.mk 0 0 0 0%float
  /\ WeeklyReset.onStepTick true (Some (Some (stepFrame 0))) None walked
     = walked.
Proof.
  repeat split; vm_compute; reflexivity.
Qed.

(** C8, as the code has it.  An accepted step reading re-derives the
    weekly record from that reading alone.  In "add weekly total" the
    weekly step count is the new daily step count and the weekly calories
    and distance are those of the daily record; in "weekly reset" the
    weekly step count is seven times the new daily step count, and the
    weekly calories and distance are what the same two formulas give for
    that sevenfold count. *)
Theorem weekly_record_rederived_from_reading
    (data : JS.Buffer) (count : Z) (alt : ReadResult) (st : App) :
  is_Some (deviceRef st) ->
  decodeStepCount data = JS.Normal count ->
  0 < count ->
  let st1 := AddWeeklyTotal.onStepTick (Some (Some data)) alt st in
  let st2 := WeeklyReset.onStepTick true (Some (Some data)) alt st in
  Daily.steps (dailyRecords st1) = count
  /\ Weekly.steps (weeklyStats st1) = Daily.steps (dailyRecords st1)
  /\ Weekly.calories (weeklyStats st1) = Daily.calories (dailyRecords st1)
  /\ Weekly.distance (weeklyStats st1) = Daily.distance (dailyRecords st1)
  /\ Weekly.calories (weeklyStats st1) = caloriesOf count
  /\ Weekly.distance (weeklyStats st1) = distanceOf count
  /\ Daily.steps (dailyRecords st2) = count
  /\ Weekly.steps (weeklyStats st2) = Daily.steps (dailyRecords st2) * 7
  /\ Weekly.calories (weeklyStats st2) = caloriesOf (count * 7)
  /\ Weekly.distance (weeklyStats st2) = distanceOf (count * 7).
Proof.
  intros Href Hdec Hpos st1 st2. subst st1 st2.
  rewrite (addWeeklyTotal_onStepTick_decoded _ _ _ _ Href Hdec).
  rewrite (weeklyReset_onStepTick_decoded _ _ _ _ Href Hdec).
  apply Z.ltb_lt in Hpos. rewrite Hpos.
  repeat split.
Qed.

Lemma weekly_record_rederived_from_reading_witness :
  let st1 := AddWeeklyTotal.onStepTick (Some (Some (stepFrame 5000))) None
               monitored in
  let st2 := WeeklyReset.onStepTick true (Some (Some (stepFrame 5000))) None
               monitored in
  Daily.steps (dailyRecords st1) = 5000
  /\ Weekly.steps (weeklyStats st1) = Daily.steps (dailyRecords st1)
  /\ Weekly.calories (weeklyStats st1) = Daily.calories (dailyRecords st1)
  /\ Weekly.distance (weeklyStats st1) = Daily.distance (dailyRecords st1)
  /\ Weekly.calories (weeklyStats st1) = caloriesOf 5000
  /\ Weekly.distance (weeklyStats st1) = distanceOf 5000
  /\ Daily.steps (dailyRecords st2) = 5000
  /\ Weekly.steps (weeklyStats st2) = Daily.steps (dailyRecords st2) * 7
  /\ Weekly.calories (weeklyStats st2) = caloriesOf (5000 * 7)
  /\ Weekly.distance (weeklyStats st2) = distanceOf (5000 * 7).
Proof.
  apply (weekly_record_rederived_from_reading (stepFrame 5000) 5000 None
           monitored).
  - eexists. reflexivity.
  - reflexivity.
  - lia.
Defined.

(** C8, as the specification words it, fails in "weekly reset": after a
    reading of 5000 steps the daily record holds 5000 steps and 225
    calories, the weekly record 35000 steps and 1575 calories. *)
Lemma weekly_reset_weekly_steps_are_sevenfold :
  Daily.steps (dailyRecords walked) = 5000
  /\ Daily.calories (dailyRecords walked) = 225
  /\ Daily.distance (dailyRecords walked) = 3.81%float
  /\ Weekly.steps (weeklyStats walked) = 35000
  /\ Weekly.calories (weeklyStats walked) = 1575
  /\ Weekly.distance (weeklyStats walked) = 26.67%float.
Proof.
  repeat split; vm_compute; reflexivity.
Qed.

End StepReadings.

(* ================================================================== *)
(** * Session teardown                                                 *)
(* ================================================================== *)

Section Teardown.

(** In "weekly reset" the disconnect callback marks the session
    disconnected, clears the step timer and releases the heart-rate
    subscription in one go. *)
Lemma weeklyReset_disconnect_tears_down (st : App) :
  let st' := WeeklyReset.dispatch WeeklyReset.DisconnectEvent st in
  status st' = "Disconnected"
  /\ connectedDevice st' = None
  /\ stepInterval st' = false
  /\ hrSubscription st' = false
  /\ readModel st' = readModel st
  /\ storage st' = storage st.
Proof.
  repeat split.
Qed.

(** Once both channels are down, no event changes the state. *)
Lemma weeklyReset_dispatch_when_down (ev : WeeklyReset.event) (st : App) :
  stepInterval st = false -> hrSubscription st = false ->
  readModel (WeeklyReset.dispatch ev st) = readModel st
  /\ stepInterval (WeeklyReset.dispatch ev st) = false
  /\ hrSubscription (WeeklyReset.dispatch ev st) = false.
Proof.
  intros Ht Hs. destruct ev; cbn [WeeklyReset.dispatch].
  - rewrite Hs. auto.
  - rewrite Ht. auto.
  - repeat split.
Qed.

Lemma weeklyReset_autoSave_readModel (st : App) :
  readModel (WeeklyReset.autoSave st) = readModel st
  /\ stepInterval (WeeklyReset.autoSave st) = stepInterval st
  /\ hrSubscription (WeeklyReset.autoSave st) = hrSubscription st.
Proof.
  unfold WeeklyReset.autoSave.
  destruct (0 <? Daily.steps (dailyRecords st)); repeat split.
Qed.

Lemma weeklyReset_step_when_down (ev : WeeklyReset.event) (st : App) :
  stepInterval st = false -> hrSubscription st = false ->
  readModel (WeeklyReset.step ev st) = readModel st
  /\ stepInterval (WeeklyReset.step ev st) = false
  /\ hrSubscription (WeeklyReset.step ev st) = false.
Proof.
  intros Ht Hs. unfold WeeklyReset.step.
  destruct (weeklyReset_dispatch_when_down ev st Ht Hs) as (Hr & Ht' & Hs').
  destruct (weeklyReset_autoSave_readModel (WeeklyReset.dispatch ev st))
    as (Hr2 & Ht2 & Hs2).
  repeat split; congruence.
Qed.

(** After the teardown of a "weekly reset" session, whatever the runtime
    tries to deliver, no sample reaches the telemetry cells. *)
Lemma weeklyReset_no_samples_after_teardown (evs : list WeeklyReset.event)
    (st : App) :
  stepInterval st = false -> hrSubscription st = false ->
  readModel (WeeklyReset.run evs st) = readModel st.
Proof.
  revert st. induction evs as [| ev evs IH]; intros st Ht Hs; [reflexivity |].
  destruct (weeklyReset_step_when_down ev st Ht Hs) as (Hr & Ht' & Hs').
  change (WeeklyReset.run (ev :: evs) st)
    with (WeeklyReset.run evs (WeeklyReset.step ev st)).
  rewrite (IH _ Ht' Hs'). exact Hr.
Qed.

(** A successful connect puts the session in the monitoring state. *)
Lemma weeklyReset_connect_monitoring (device : Device) (st : App) :
  WeeklyReset.monitoring (WeeklyReset.connectToDevice device true st).
Proof.
  repeat split. now exists device.
Qed.

(** From the monitoring state of "weekly reset", the disconnect event
    leaves the session disconnected with both channels down, and no
    event delivered afterwards changes the telemetry. *)
Lemma weeklyReset_teardown_is_final (evs : list WeeklyReset.event)
    (st : App) :
  WeeklyReset.monitoring st ->
  let st' := WeeklyReset.dispatch WeeklyReset.DisconnectEvent st in
  status st' = "Disconnected"
  /\ connectedDevice st' = None
  /\ stepInterval st' = false
  /\ hrSubscription st' = false
  /\ readModel (WeeklyReset.run evs st') = readModel st.
Proof.
  intros _ st'. repeat split.
  now rewrite weeklyReset_no_samples_after_teardown.
Qed.

(** C3.  The disconnect callback of "part_002" releases only half of the
    session.  Starting from a freshly connected session, the disconnect
    event sets the status to "Disconnected", drops the device and clears
    the step timer, but the heart-rate subscription stays registered, so
    a notification delivered to it afterwards still becomes the current
    heart rate.  The callback of "weekly reset" releases the subscription
    as well, and the same notification is not delivered. *)
Theorem part002_disconnect_keeps_hr_subscription :
  let st := Part002.connectToDevice band true (initial ∅) in
  let st' := Part002.dispatch Part002.DisconnectEvent st in
  let down := WeeklyReset.dispatch WeeklyReset.DisconnectEvent monitored in
  stepInterval st = true
  /\ hrSubscription st = true
  /\ status st' = "Disconnected"
  /\ connectedDevice st' = None
  /\ stepInterval st' = false
  /\ hrSubscription st' = true
  /\ heartRate st' = 0
  /\ heartRate
       (Part002.dispatch (Part002.HeartRateNotification (Some (hrFrame 72))) st')
     = 72
  /\ hrSubscription down = false
  /\ heartRate
       (WeeklyReset.dispatch
          (WeeklyReset.HeartRateNotification false (Some (hrFrame 72)) "10:00")
          down)
     = 0.
Proof.
  repeat split.
Qed.

End Teardown.

(* ================================================================== *)
(** * The store: auto-save and the Monday reset                        *)
(* ================================================================== *)

Section Store.

(** No event handler writes to the store. *)
Lemma weeklyReset_dispatch_storage (ev : WeeklyReset.event) (st : App) :
  storage (WeeklyReset.dispatch ev st) = storage st.
Proof.
  destruct ev; unfold WeeklyReset.dispatch, WeeklyReset.onHeartRate,
    WeeklyReset.onStepTick; repeat case_match; reflexivity.
Qed.

Lemma part002_dispatch_storage (ev : Part002.event) (st : App) :
  storage (Part002.dispatch ev st) = storage st.
Proof.
  destruct ev; unfold Part002.dispatch, Part002.onHeartRate,
    Part002.onStepTick; repeat case_match; reflexivity.
Qed.

(** The auto-save writes under [STORAGE_KEY] only. *)
Lemma weeklyReset_autoSave_other_keys (key : string) (st : App) :
  key <> WeeklyReset.STORAGE_KEY ->
  getItem key (WeeklyReset.autoSave st) = getItem key st.
Proof.
  intros Hne. unfold WeeklyReset.autoSave, getItem.
  destruct (0 <? Daily.steps (dailyRecords st)); [| reflexivity].
  cbn [setItem storage]. now rewrite lookup_insert_ne.
Qed.

(** Events and their auto-saves leave the reset marker alone. *)
Lemma weeklyReset_run_marker (evs : list WeeklyReset.event) (st : App) :
  getItem WeeklyReset.RESET_KEY (WeeklyReset.run evs st)
  = getItem WeeklyReset.RESET_KEY st.
Proof.
  revert st. induction evs as [| ev evs IH]; intros st; [reflexivity |].
  change (WeeklyReset.run (ev :: evs) st)
    with (WeeklyReset.run evs (WeeklyReset.step ev st)).
  rewrite IH. unfold WeeklyReset.step.
  rewrite weeklyReset_autoSave_other_keys by discriminate.
  unfold getItem. now rewrite weeklyReset_dispatch_storage.
Qed.

(** ** The Monday reset *)

Lemma differs_same (s : string) : differs (Some (SDate s)) s = false.
Proof.
  cbn. now rewrite String.eqb_refl.
Qed.

(** When the reset is not due the check does nothing. *)
Lemma checkWeeklyReset_not_due (now : Date) (st : App) :
  WeeklyReset.resetDue now st = false -> WeeklyReset.checkWeeklyReset now st = st.
Proof.
  unfold WeeklyReset.resetDue, WeeklyReset.checkWeeklyReset.
  now intros ->.
Qed.

Lemma handleWeeklyReset_not_due (today : Date) (st : App) :
  AddWeeklyTotal.resetDue today st = false ->
  AddWeeklyTotal.handleWeeklyReset today st = st.
Proof.
  unfold AddWeeklyTotal.resetDue, AddWeeklyTotal.handleWeeklyReset.
  destruct (getDay today =? 1); [| reflexivity].
  cbn [andb]. now intros ->.
Qed.

(** After the check the marker is today's date whenever today is a
    Monday, so the reset is no longer due. *)
Lemma checkWeeklyReset_settles (now : Date) (st : App) :
  WeeklyReset.resetDue now (WeeklyReset.checkWeeklyReset now st) = false.
Proof.
  destruct (WeeklyReset.resetDue now st) eqn:Hdue.
  - unfold WeeklyReset.checkWeeklyReset.
    unfold WeeklyReset.resetDue in Hdue. rewrite Hdue.
    apply andb_true_iff in Hdue as [Hmon _].
    unfold WeeklyReset.resetDue. rewrite Hmon. cbn [andb].
    match goal with
    | |- differs (getItem _ (match ?x with _ => _ end)) _ = false =>
        destruct x as [[s | data] |]
    end; unfold getItem; cbn [setItem setWeeklyStats storage];
      rewrite ?(lookup_insert_ne _ WeeklyReset.STORAGE_KEY) by discriminate;
      rewrite lookup_insert_eq; apply differs_same.
  - now rewrite checkWeeklyReset_not_due.
Qed.

Lemma handleWeeklyReset_settles (today : Date) (st : App) :
  AddWeeklyTotal.resetDue today (AddWeeklyTotal.handleWeeklyReset today st)
  = false.
Proof.
  destruct (AddWeeklyTotal.resetDue today st) eqn:Hdue.
  - unfold AddWeeklyTotal.resetDue in *.
    apply andb_true_iff in Hdue as [Hmon Hdiff].
    unfold AddWeeklyTotal.handleWeeklyReset. rewrite Hmon, Hdiff.
    cbn [andb]. unfold getItem. cbn [setItem storage].
    rewrite lookup_insert_eq. apply differs_same.
  - now rewrite handleWeeklyReset_not_due.
Qed.

(** Once the reset is not due, no later check on that date performs one,
    whatever events come in between. *)
Lemma resets_none_when_settled (now : Date)
    (stretches : list (list WeeklyReset.event)) (st : App) :
  WeeklyReset.resetDue now st = false ->
  WeeklyReset.resets now stretches st = 0%nat.
Proof.
  revert st. induction stretches as [| evs rest IH]; intros st Hdue;
    [reflexivity |].
  cbn [WeeklyReset.resets].
  assert (WeeklyReset.resetDue now (WeeklyReset.run evs st) = false) as Hrun.
  { unfold WeeklyReset.resetDue in *. now rewrite weeklyReset_run_marker. }
  rewrite Hrun, (checkWeeklyReset_not_due _ _ Hrun).
  now rewrite IH.
Qed.

Lemma resets_at_most_one (now : Date)
    (stretches : list (list WeeklyReset.event)) (st : App) :
  (WeeklyReset.resets now stretches st <= 1)%nat.
Proof.
  destruct stretches as [| evs rest]; cbn [WeeklyReset.resets]; [lia |].
  rewrite resets_none_when_settled by apply checkWeeklyReset_settles.
  destruct (WeeklyReset.resetDue now (WeeklyReset.run evs st)); lia.
Qed.

(** C6.  The weekly reset check is idempotent within one Monday.  When
    the stored marker already is today's date, [checkWeeklyReset]
    ("weekly reset") and [handleWeeklyReset] ("add weekly total") return
    the state they were given: weekly record, marker and everything else
    unchanged.  Running either check a second time on the same date
    changes nothing more, and however many times the check of
    "weekly reset" runs on one date, with any events delivered in
    between, it performs at most one reset. *)
Theorem weekly_reset_at_most_once_per_date (now : Date) (st : App) :
  (getItem WeeklyReset.RESET_KEY st = Some (SDate (toDateString now)) ->
     WeeklyReset.checkWeeklyReset now st = st)
  /\ (getItem AddWeeklyTotal.RESET_TRACKER_KEY st
        = Some (SDate (toDateString now)) ->
      AddWeeklyTotal.handleWeeklyReset now st = st)
  /\ WeeklyReset.checkWeeklyReset now (WeeklyReset.checkWeeklyReset now st)
     = WeeklyReset.checkWeeklyReset now st
  /\ AddWeeklyTotal.handleWeeklyReset now
       (AddWeeklyTotal.handleWeeklyReset now st)
     = AddWeeklyTotal.handleWeeklyReset now st
  /\ (forall stretches : list (list WeeklyReset.event),
        (WeeklyReset.resets now stretches st <= 1)%nat).
Proof.
  split; [| split; [| split; [| split]]].
  - intros Hmark. apply checkWeeklyReset_not_due.
    unfold WeeklyReset.resetDue. rewrite Hmark, differs_same.
    apply andb_false_r.
  - intros Hmark. apply handleWeeklyReset_not_due.
    unfold AddWeeklyTotal.resetDue. rewrite Hmark, differs_same.
    apply andb_false_r.
  - apply checkWeeklyReset_not_due, checkWeeklyReset_settles.
  - apply handleWeeklyReset_not_due, handleWeeklyReset_settles.
  - intros stretches. apply resets_at_most_one.
Qed.

Lemma weekly_reset_at_most_once_per_date_witness :
  WeeklyReset.checkWeeklyReset monday resetDone = resetDone
  /\ AddWeeklyTotal.handleWeeklyReset monday resetDone = resetDone.
Proof.
  destruct (weekly_reset_at_most_once_per_date monday resetDone)
    as (Hcheck & Hhandle & _).
  split.
  - apply Hcheck. reflexivity.
  - apply Hhandle. reflexivity.
Defined.

(** ** The auto-save *)

(** C10.  The auto-save runs only with a positive daily step count.  With
    [dailyRecords.steps > 0] it writes the combined object under
    [STORAGE_KEY]; with a step count of 0 (or less) it returns the state
    untouched, store included.  Hence an event after which the daily step
    count is still 0 leaves the store as it was; so does the initial
    state; and so does the state right after the Monday reset of
    "add weekly total" has zeroed the daily record. *)
Theorem autosave_gated_on_positive_steps (st : App) :
  (Daily.steps (dailyRecords st) <= 0 ->
     WeeklyReset.autoSave st = st /\ Part002.autoSave st = st)
  /\ (0 < Daily.steps (dailyRecords st) ->
      storage (WeeklyReset.autoSave st)
      = <[WeeklyReset.STORAGE_KEY := SJson (WeeklyReset.dataToSave st)]>
          (storage st)
      /\ storage (Part002.autoSave st)
         = <[Part002.STORAGE_KEY := SJson (Part002.dataToSave st)]>
             (storage st))
  /\ (forall ev : WeeklyReset.event,
        Daily.steps (dailyRecords (WeeklyReset.dispatch ev st)) <= 0 ->
        storage (WeeklyReset.step ev st) = storage st)
  /\ (forall ev : Part002.event,
        Daily.steps (dailyRecords (Part002.dispatch ev st)) <= 0 ->
        storage (Part002.step ev st) = storage st)
  /\ (forall store : gmap string Stored,
        WeeklyReset.autoSave (initial store) = initial store
        /\ Part002.autoSave (initial store) = initial store)
  /\ (forall today : Date,
        AddWeeklyTotal.resetDue today st = true ->
        AddWeeklyTotal.autoSave (AddWeeklyTotal.handleWeeklyReset today st)
        = AddWeeklyTotal.handleWeeklyReset today st).
Proof.
  split; [| split; [| split; [| split; [| split]]]].
  - intros Hz. unfold WeeklyReset.autoSave, Part002.autoSave.
    destruct (Z.ltb_spec 0 (Daily.steps (dailyRecords st))); [lia | auto].
  - intros Hpos. unfold WeeklyReset.autoSave, Part002.autoSave.
    apply Z.ltb_lt in Hpos. rewrite Hpos. split; reflexivity.
  - intros ev Hz. unfold WeeklyReset.step, WeeklyReset.autoSave.
    destruct (Z.ltb_spec 0
                (Daily.steps (dailyRecords (WeeklyReset.dispatch ev st))));
      [lia | apply weeklyReset_dispatch_storage].
  - intros ev Hz. unfold Part002.step, Part002.autoSave.
    destruct (Z.ltb_spec 0
                (Daily.steps (dailyRecords (Part002.dispatch ev st))));
      [lia | apply part002_dispatch_storage].
  - intros store. split; reflexivity.
  - intros today Hdue. unfold AddWeeklyTotal.resetDue in Hdue.
    apply andb_true_iff in Hdue as [Hmon Hdiff].
    unfold AddWeeklyTotal.handleWeeklyReset. rewrite Hmon, Hdiff.
    reflexivity.
Qed.

Lemma autosave_gated_on_positive_steps_witness :
  (WeeklyReset.autoSave monitored = monitored
   /\ Part002.autoSave monitored = monitored)
  /\ (storage (WeeklyReset.autoSave walked)
      = <[WeeklyReset.STORAGE_KEY := SJson (WeeklyReset.dataToSave walked)]>
          (storage walked)
      /\ storage (Part002.autoSave walked)
         = <[Part002.STORAGE_KEY := SJson (Part002.dataToSave walked)]>
             (storage walked))
  /\ storage
       (WeeklyReset.step
          (WeeklyReset.HeartRateNotification false (Some (hrFrame 72)) "10:00")
          monitored)
     = storage monitored
  /\ AddWeeklyTotal.autoSave (AddWeeklyTotal.handleWeeklyReset monday walked)
     = AddWeeklyTotal.handleWeeklyReset monday walked.
Proof.
  split; [| split; [| split]].
  - apply (autosave_gated_on_positive_steps monitored).
    apply Z.leb_le. reflexivity.
  - apply (autosave_gated_on_positive_steps walked).
    apply Z.ltb_lt. reflexivity.
  - apply (autosave_gated_on_positive_steps monitored).
    apply Z.leb_le. reflexivity.
  - apply (autosave_gated_on_positive_steps walked). reflexivity.
Defined.

End Store.

(* ================================================================== *)
(** * The decoders on every buffer                                     *)
(* ================================================================== *)

Section DecoderTables.

Lemma le_uint3_range (b1 b2 b3 : byte) : 0 <= le_uint [b1; b2; b3] < 2 ^ 24.
Proof.
  pose proof (byte_val_range b1). pose proof (byte_val_range b2).
  pose proof (byte_val_range b3). cbn [le_uint]. lia.
Qed.

(** Whatever the step decoder returns fits 24 bits. *)
Lemma decodeStepCount_range (data : JS.Buffer) (n : Z) :
  decodeStepCount data = JS.Normal n -> 0 <= n < 2 ^ 24.
Proof.
  destruct data as [| b0 [| b1 [| b2 [| b3 [| b4 rest]]]]];
    try (intros [= <-]; lia); try discriminate.
  rewrite step_decode_five_bytes. intros [= <-]. apply le_uint3_range.
Qed.

(** The step decoder, by the length of the buffer: below four bytes it
    yields 0; on exactly four bytes it throws; from five bytes on it
    yields the little-endian value of bytes 1 to 3, which is below 2^24
    and does not depend on byte 0, on byte 4 or on anything after. *)
Theorem decodeStepCount_table (data : JS.Buffer) :
  decodeStepCount data
  = match data with
    | _ :: b1 :: b2 :: b3 :: _ :: _ => JS.Normal (le_uint [b1; b2; b3])
    | [_; _; _; _] => JS.RangeError
    | _ => JS.Normal 0
    end
  /\ forall n, decodeStepCount data = JS.Normal n -> 0 <= n < 2 ^ 24.
Proof.
  split.
  - destruct data as [| b0 [| b1 [| b2 [| b3 [| b4 rest]]]]];
      try reflexivity.
    apply step_decode_five_bytes.
  - intros n. apply decodeStepCount_range.
Qed.

Lemma decodeStepCount_table_witness :
  0 <= 5000 < 2 ^ 24.
Proof.
  apply (decodeStepCount_table (stepFrame 5000)). reflexivity.
Defined.

(** The heart-rate decoder that tests [data[0] === 0x16], on every
    buffer: an empty or one-byte buffer gives [undefined]; a two-byte
    buffer gives byte 1, unless byte 0 is 0x16, when the 16-bit read
    throws; a longer buffer gives the little-endian value of bytes 1 and
    2 when byte 0 is 0x16 and byte 1 otherwise. *)
Theorem decodeHeartRate_0x16_table (data : JS.Buffer) :
  decodeHeartRate_0x16 data
  = match data with
    | [] | [_] => JS.Normal JS.Undefined
    | [f; b1] =>
        if JS.byte_val f =? 0x16 then JS.RangeError
        else JS.Normal (JS.Num (JS.byte_val b1))
    | f :: b1 :: b2 :: _ =>
        if JS.byte_val f =? 0x16 then JS.Normal (JS.Num (le_uint [b1; b2]))
        else JS.Normal (JS.Num (JS.byte_val b1))
    end.
Proof.
  destruct data as [| f [| b1 [| b2 rest]]]; try reflexivity.
  unfold decodeHeartRate_0x16, JS.index, JS.strict_eq.
  cbn [length Nat.leb lookup list_lookup].
  destruct (JS.byte_val f =? 22); [| reflexivity].
  now rewrite readUInt16LE_1.
Qed.

(** The decoder of "part_000", on every buffer: with bit 0 of byte 0 set
    it gives the little-endian value of bytes 1 and 2, and throws when
    the buffer has fewer than three bytes; with the bit clear, or on an
    empty buffer, it gives byte 1, [undefined] when there is none. *)
Theorem part000_decodeHeartRate_table (data : JS.Buffer) :
  Part000.decodeHeartRate data
  = match data with
    | [] => JS.Normal JS.Undefined
    | f :: rest =>
        if Z.testbit (JS.byte_val f) 0 then
          match rest with
          | b1 :: b2 :: _ => JS.Normal (JS.Num (le_uint [b1; b2]))
          | _ => JS.RangeError
          end
        else
          match rest with
          | b1 :: _ => JS.Normal (JS.Num (JS.byte_val b1))
          | [] => JS.Normal JS.Undefined
          end
    end.
Proof.
  destruct data as [| f rest]; [reflexivity |].
  unfold Part000.decodeHeartRate, JS.index. cbn [lookup list_lookup].
  rewrite bandv_bit0.
  destruct (Z.testbit (JS.byte_val f) 0); cbn [Z.eqb negb].
  - destruct rest as [| b1 [| b2 rest]]; try reflexivity.
    now rewrite readUInt16LE_1.
  - destruct rest as [| b1 rest]; reflexivity.
Qed.

(** The callback of "part_000" has no filter: a one-byte frame whose
    bit 0 is clear makes [undefined] the heart rate and the newest entry
    of the history window, and a frame that makes the read throw leaves
    both as they were. *)
Theorem part000_stores_undefined (f : byte) (st : Part000.App) :
  Part000.onHeartRate false (Some [f]) st
  = if Z.testbit (JS.byte_val f) 0 then st
    else Part000.mkApp JS.Undefined
           (appendHistory (Part000.hrHistory st) JS.Undefined).
Proof.
  unfold Part000.onHeartRate, Part000.decodeHeartRate, JS.index.
  cbn [lookup list_lookup]. rewrite bandv_bit0.
  now destruct (Z.testbit (JS.byte_val f) 0).
Qed.

(** The decoder of "crash changes" never throws, and it differs from the
    later one on a single kind of buffer: two bytes with 0x16 first,
    where it gives byte 1 and the later one throws. *)
Theorem crashChanges_decodeHeartRate_total (data : JS.Buffer) :
  CrashChanges.decodeHeartRate data
  = match decodeHeartRate_0x16 data with
    | JS.RangeError => JS.Normal (JS.index data 1)
    | JS.Normal bpm => JS.Normal bpm
    end.
Proof.
  destruct data as [| f [| b1 [| b2 rest]]]; try reflexivity;
    unfold CrashChanges.decodeHeartRate, decodeHeartRate_0x16, JS.index,
      JS.strict_eq;
    cbn [length Nat.ltb Nat.leb lookup list_lookup];
    destruct (JS.byte_val f =? 22); reflexivity.
Qed.

End DecoderTables.

(* ================================================================== *)
(** * What a delivery can do                                           *)
(* ================================================================== *)

Section Outcomes.

(** A heart-rate notification either leaves the state alone or accepts
    one sample, strictly between 30 and 220, and which of the two does
    not depend on the state. *)
Lemma weeklyReset_hr_outcome (err : bool) (value : option JS.Buffer)
    (timestamp : string) :
  exists o : option Z,
    (forall n, o = Some n -> 30 < n < 220)
    /\ forall st,
         WeeklyReset.onHeartRate err value timestamp st
         = match o with
           | Some n => WeeklyReset.acceptHeartRate n timestamp st
           | None => st
           end.
Proof.
  unfold WeeklyReset.onHeartRate.
  destruct err; [exists None; split; [discriminate | reflexivity] |].
  destruct value as [data |];
    [| exists None; split; [discriminate | reflexivity]].
  destruct (decodeHeartRate_0x16 data) as [[n |] |];
    try (exists None; split; [discriminate | reflexivity]).
  cbn [JS.gt JS.lt].
  destruct (Z.ltb_spec 30 n), (Z.ltb_spec n 220); cbn [andb];
    try (exists None; split; [discriminate | reflexivity]).
  exists (Some n). split; [intros ? [= <-]; lia | reflexivity].
Qed.

Lemma part002_hr_outcome (value : option JS.Buffer) :
  exists o : option Z,
    (forall n, o = Some n -> 30 < n < 220)
    /\ forall st,
         Part002.onHeartRate value st
         = match o with
           | Some n => Part002.acceptHeartRate n st
           | None => st
           end.
Proof.
  unfold Part002.onHeartRate.
  destruct value as [data |];
    [| exists None; split; [discriminate | reflexivity]].
  destruct (decodeHeartRate_0x16 data) as [[n |] |];
    try (exists None; split; [discriminate | reflexivity]).
  cbn [JS.gt JS.lt].
  destruct (Z.ltb_spec 30 n), (Z.ltb_spec n 220); cbn [andb];
    try (exists None; split; [discriminate | reflexivity]).
  exists (Some n). split; [intros ? [= <-]; lia | reflexivity].
Qed.

(** What a poll can apply, whatever the state: nothing, or one count
    between 1 and 2^24 - 1. *)
Lemma poll_outcome (char : ReadResult) :
  exists o : option Z,
    (forall n, o = Some n -> 0 < n < 2 ^ 24)
    /\ match char with
       | Some (Some data) =>
           match decodeStepCount data with
           | JS.RangeError => None
           | JS.Normal count => if 0 <? count then Some count else None
           end
       | _ => None
       end = o.
Proof.
  eexists. split; [| reflexivity].
  intros n. destruct char as [[data |] |]; try discriminate.
  destruct (decodeStepCount data) as [count |] eqn:Hdec; try discriminate.
  destruct (Z.ltb_spec 0 count); intros [= <-].
  pose proof (decodeStepCount_range data count Hdec). lia.
Qed.

Lemma weeklyReset_tick_outcome (isConnected : bool) (primary alt : ReadResult) :
  exists o : option Z,
    (forall n, o = Some n -> 0 < n < 2 ^ 24)
    /\ forall st,
         WeeklyReset.onStepTick isConnected primary alt st
         = match deviceRef st, o with
           | Some _, Some n => WeeklyReset.acceptSteps n st
           | _, _ => st
           end.
Proof.
  destruct isConnected.
  - destruct (poll_outcome
                (match primary with Some c => Some c | None => alt end))
      as (o & Hrange & Ho).
    exists o. split; [exact Hrange |].
    intros st. unfold WeeklyReset.onStepTick. cbn [negb]. cbv zeta.
    destruct (deviceRef st); [| reflexivity].
    subst o.
    destruct primary as [[data |] |]; [| | destruct alt as [[data |] |]];
      try reflexivity;
      (destruct (decodeStepCount data) as [count |]; [| reflexivity]);
      now destruct (0 <? count).
  - exists None. split; [discriminate |].
    intros st. unfold WeeklyReset.onStepTick. now destruct (deviceRef st).
Qed.

Lemma part002_tick_outcome (primary alt : ReadResult) :
  exists o : option Z,
    (forall n, o = Some n -> 0 < n < 2 ^ 24)
    /\ forall st,
         Part002.onStepTick primary alt st
         = match deviceRef st, o with
           | Some _, Some n => Part002.acceptSteps n st
           | _, _ => st
           end.
Proof.
  destruct (poll_outcome
              (match primary with Some c => Some c | None => alt end))
    as (o & Hrange & Ho).
  exists o. split; [exact Hrange |].
  intros st. unfold Part002.onStepTick. cbv zeta.
  destruct (deviceRef st); [| reflexivity].
  subst o.
  destruct primary as [[data |] |]; [| | destruct alt as [[data |] |]];
    try reflexivity;
    (destruct (decodeStepCount data) as [count |]; [| reflexivity]);
    now destruct (0 <? count).
Qed.

(** The order in which a heart-rate notification and a step poll are
    delivered does not matter: the two callbacks update the daily record
    through [prev => ...] and touch different fields of it. *)
Theorem hr_and_step_deliveries_commute
    (err : bool) (value : option JS.Buffer) (timestamp : string)
    (isConnected : bool) (primary alt : ReadResult) (st : App) :
  WeeklyReset.onStepTick isConnected primary alt
    (WeeklyReset.onHeartRate err value timestamp st)
  = WeeklyReset.onHeartRate err value timestamp
      (WeeklyReset.onStepTick isConnected primary alt st)
  /\ Part002.onStepTick primary alt (Part002.onHeartRate value st)
     = Part002.onHeartRate value (Part002.onStepTick primary alt st).
Proof.
  destruct (weeklyReset_hr_outcome err value timestamp) as (oh & _ & Hh).
  destruct (weeklyReset_tick_outcome isConnected primary alt) as (os & _ & Hs).
  destruct (part002_hr_outcome value) as (oh2 & _ & Hh2).
  destruct (part002_tick_outcome primary alt) as (os2 & _ & Hs2).
  rewrite !Hh, !Hs, !Hh2, !Hs2.
  split.
  - destruct oh, os; cbn; destruct (deviceRef st); reflexivity.
  - destruct oh2, os2; cbn; destruct (deviceRef st); reflexivity.
Qed.

(** A step reading replaces the one before: delivering the same poll
    result twice is the same as delivering it once, in all four polls. *)
Theorem step_poll_is_idempotent
    (isConnected : bool) (primary alt : ReadResult) (st : App) :
  WeeklyReset.onStepTick isConnected primary alt
    (WeeklyReset.onStepTick isConnected primary alt st)
  = WeeklyReset.onStepTick isConnected primary alt st
  /\ Part002.onStepTick primary alt (Part002.onStepTick primary alt st)
     = Part002.onStepTick primary alt st
  /\ AddWeeklyTotal.onStepTick primary alt
       (AddWeeklyTotal.onStepTick primary alt st)
     = AddWeeklyTotal.onStepTick primary alt st
  /\ CrashChanges.onStepTick primary (CrashChanges.onStepTick primary st)
     = CrashChanges.onStepTick primary st.
Proof.
  destruct (weeklyReset_tick_outcome isConnected primary alt) as (os & _ & Hs).
  destruct (part002_tick_outcome primary alt) as (os2 & _ & Hs2).
  rewrite !Hs, !Hs2.
  split; [| split; [| split]].
  - destruct os; destruct (deviceRef st) eqn:Hd; cbn; rewrite ?Hd; reflexivity.
  - destruct os2; destruct (deviceRef st) eqn:Hd; cbn; rewrite ?Hd; reflexivity.
  - unfold AddWeeklyTotal.onStepTick. cbv zeta.
    destruct (deviceRef st) eqn:Hd; [| now rewrite Hd].
    destruct primary as [[data |] |]; [| | destruct alt as [[data |] |]];
      rewrite ?Hd; try reflexivity;
      (destruct (decodeStepCount data) as [count |];
       rewrite ?Hd; try reflexivity);
      destruct (0 <? count); cbn; rewrite ?Hd; reflexivity.
  - unfold CrashChanges.onStepTick.
    destruct primary as [[data |] |]; try reflexivity.
    destruct (4 <=? length data)%nat; [| reflexivity].
    destruct (JS.readUInt32LE data 1); reflexivity.
Qed.

(** A later accepted reading wipes an earlier one: after two polls the
    state is what the second poll alone would have left, as soon as the
    second reading is accepted. *)
Theorem later_step_reading_wins
    (primary1 alt1 : ReadResult) (data : JS.Buffer) (count : Z)
    (alt : ReadResult) (st : App) :
  is_Some (deviceRef st) ->
  decodeStepCount data = JS.Normal count ->
  0 < count ->
  WeeklyReset.onStepTick true (Some (Some data)) alt
    (WeeklyReset.onStepTick true primary1 alt1 st)
  = WeeklyReset.onStepTick true (Some (Some data)) alt st
  /\ Part002.onStepTick (Some (Some data)) alt
       (Part002.onStepTick primary1 alt1 st)
     = Part002.onStepTick (Some (Some data)) alt st.
Proof.
  intros [d Hd] Hdec Hpos. apply Z.ltb_lt in Hpos.
  destruct (weeklyReset_tick_outcome true primary1 alt1) as (o1 & _ & H1).
  destruct (part002_tick_outcome primary1 alt1) as (o2 & _ & H2).
  rewrite H1, H2, Hd.
  unfold WeeklyReset.onStepTick, Part002.onStepTick.
  rewrite Hdec, Hpos, Hd. cbn [negb].
  split.
  - destruct o1; cbn; rewrite ?Hd; reflexivity.
  - destruct o2; cbn; rewrite ?Hd; reflexivity.
Qed.

Lemma later_step_reading_wins_witness :
  WeeklyReset.onStepTick true (Some (Some (stepFrame 5000))) None
    (WeeklyReset.onStepTick true (Some (Some (stepFrame 100))) None monitored)
  = WeeklyReset.onStepTick true (Some (Some (stepFrame 5000))) None monitored
  /\ Part002.onStepTick (Some (Some (stepFrame 5000))) None
       (Part002.onStepTick (Some (Some (stepFrame 100))) None monitored)
     = Part002.onStepTick (Some (Some (stepFrame 5000))) None monitored.
Proof.
  apply (later_step_reading_wins (Some (Some (stepFrame 100))) None
           (stepFrame 5000) 5000 None monitored).
  - eexists. reflexivity.
  - reflexivity.
  - lia.
Defined.

(** The callback of "crash changes" filters by truthiness only: a frame
    that decodes to a number is accepted exactly when the number is not
    0, so values far outside any heart rate are stored; a frame that
    decodes to [undefined] changes nothing. *)
Theorem crashChanges_accepts_any_nonzero_bpm
    (data : JS.Buffer) (bpm : Z) (st : App) :
  (1 <= length data)%nat ->
  CrashChanges.decodeHeartRate data = JS.Normal (JS.Num bpm) ->
  let st' := CrashChanges.onHeartRate (Some data) st in
  (bpm = 0 -> st' = st)
  /\ (bpm <> 0 ->
      heartRate st' = bpm
      /\ hrHistory st' = appendHistory (hrHistory st) bpm
      /\ Daily.avgHr (dailyRecords st') = bpm).
Proof.
  intros Hlen Hdec st'. subst st'. unfold CrashChanges.onHeartRate.
  destruct (Nat.leb_spec 1 (length data)); [| lia].
  rewrite Hdec. cbn [JS.truthy].
  destruct (Z.eqb_spec bpm 0); cbn [negb]; split; intros; try lia;
    repeat split; congruence.
Qed.

Lemma crashChanges_accepts_any_nonzero_bpm_witness :
  let st' := CrashChanges.onHeartRate (Some (hrFrame 250)) monitored in
  (250 = 0 -> st' = monitored)
  /\ (250 <> 0 ->
      heartRate st' = 250
      /\ hrHistory st' = appendHistory (hrHistory monitored) 250
      /\ Daily.avgHr (dailyRecords st') = 250).
Proof.
  apply (crashChanges_accepts_any_nonzero_bpm (hrFrame 250) 250 monitored).
  - cbn. lia.
  - reflexivity.
Defined.

End Outcomes.

(* ================================================================== *)
(** * Scanning and the phone's step count                              *)
(* ================================================================== *)

Section Scanning.

Lemma addDevice_listed (prev : list Device) (device : Device) :
  id device ∈ (id <$> prev) -> addDevice prev device = prev.
Proof.
  intros Hin. unfold addDevice.
  destruct (find _ prev) eqn:Hfind; [reflexivity |].
  apply list_elem_of_fmap in Hin as (d & Hid & Hd).
  apply list_elem_of_In in Hd.
  pose proof (find_none _ _ Hfind d Hd) as Hneq. cbn in Hneq.
  rewrite Hid, String.eqb_refl in Hneq. discriminate.
Qed.

Lemma addDevice_new (prev : list Device) (device : Device) :
  id device ∉ (id <$> prev) -> addDevice prev device = prev ++ [device].
Proof.
  intros Hnotin. unfold addDevice.
  destruct (find _ prev) eqn:Hfind; [| reflexivity].
  apply find_some in Hfind as [Hd Heq].
  apply String.eqb_eq in Heq.
  exfalso. apply Hnotin. rewrite <- Heq.
  apply list_elem_of_fmap. exists d. split; [reflexivity |].
  now apply list_elem_of_In.
Qed.

Lemma addDevice_ids (prev : list Device) (device : Device) (i : string) :
  i ∈ (id <$> addDevice prev device) <-> i ∈ (id <$> prev) \/ i = id device.
Proof.
  destruct (decide (id device ∈ (id <$> prev))) as [Hin | Hnotin].
  - rewrite addDevice_listed by assumption. split; [auto |].
    intros [H | ->]; assumption.
  - rewrite addDevice_new by assumption.
    rewrite fmap_app, elem_of_app. cbn. rewrite list_elem_of_singleton.
    reflexivity.
Qed.

Lemma addDevice_NoDup (prev : list Device) (device : Device) :
  NoDup (id <$> prev) -> NoDup (id <$> addDevice prev device).
Proof.
  intros Hnd.
  destruct (decide (id device ∈ (id <$> prev))) as [Hin | Hnotin].
  - now rewrite addDevice_listed.
  - rewrite addDevice_new by assumption.
    rewrite fmap_app. apply NoDup_app. split; [assumption |].
    split; [| apply NoDup_singleton].
    intros i Hi Hi'. cbn in Hi'. apply list_elem_of_singleton in Hi'.
    subst i. contradiction.
Qed.

Lemma addDevice_named (prev : list Device) (device : Device) :
  named device = true ->
  Forall (fun d => named d = true) prev ->
  Forall (fun d => named d = true) (addDevice prev device).
Proof.
  intros Hname Hall. unfold addDevice.
  destruct (find _ prev); [assumption |].
  apply Forall_app. split; [assumption |]. now constructor.
Qed.

(** The devices a run of scan reports leaves in the list. *)
Lemma scan_reports_ids (reports : list (option Device)) (s : Screen)
    (i : string) :
  i ∈ (id <$> devices
               (fold_left (fun s r => WeeklyReset.onScanResult false r s)
                  reports s))
  <-> i ∈ (id <$> devices s)
      \/ exists d, Some d ∈ reports /\ named d = true /\ id d = i.
Proof.
  revert s. induction reports as [| r reports IH]; intros s.
  - cbn. split; [auto |]. intros [H | (d & Hd & _)]; [assumption |].
    now apply elem_of_nil in Hd.
  - cbn [fold_left]. rewrite IH. clear IH.
    unfold WeeklyReset.onScanResult.
    destruct r as [d |].
    + destruct (named d) eqn:Hname.
      * cbn [setDevices devices]. rewrite addDevice_ids. split.
        -- intros [[H | ->] | (d' & Hd' & Hn & Hi)]; [auto | |].
           ++ right. exists d. split; [left | auto].
           ++ right. exists d'. split; [now right | auto].
        -- intros [H | (d' & Hd' & Hn & Hi)]; [auto |].
           apply elem_of_cons in Hd' as [[= ->] | Hd']; [auto |].
           right. exists d'. auto.
      * split.
        -- intros [H | (d' & Hd' & Hn & Hi)]; [auto |].
           right. exists d'. split; [now right | auto].
        -- intros [H | (d' & Hd' & Hn & Hi)]; [auto |].
           apply elem_of_cons in Hd' as [[= ->] | Hd']; [congruence |].
           right. exists d'. auto.
    + split.
      * intros [H | (d' & Hd' & Hn & Hi)]; [auto |].
        right. exists d'. split; [now right | auto].
      * intros [H | (d' & Hd' & Hn & Hi)]; [auto |].
        apply elem_of_cons in Hd' as [[=] | Hd'].
        right. exists d'. auto.
Qed.

Lemma scan_reports_NoDup (reports : list (option Device)) (s : Screen) :
  NoDup (id <$> devices s) ->
  NoDup (id <$> devices
                  (fold_left (fun s r => WeeklyReset.onScanResult false r s)
                     reports s)).
Proof.
  revert s. induction reports as [| r reports IH]; intros s Hnd;
    [assumption |].
  cbn [fold_left]. apply IH. unfold WeeklyReset.onScanResult.
  destruct r as [d |]; [| assumption].
  destruct (named d); [| assumption].
  cbn [setDevices devices]. now apply addDevice_NoDup.
Qed.

(** A scan started with permission, followed by any run of reports,
    lists exactly the ids of the named devices reported, each once,
    whatever was listed before the scan. *)
Theorem scan_lists_each_named_device_once
    (android : bool) (apiLevel : Z) (granted : gset string)
    (reports : list (option Device)) (s : Screen) (i : string) :
  WeeklyReset.requestPermissions android apiLevel granted = true ->
  isScanning s = false ->
  let s' := fold_left (fun s r => WeeklyReset.onScanResult false r s) reports
              (WeeklyReset.startScan android apiLevel granted s) in
  NoDup (id <$> devices s')
  /\ (i ∈ (id <$> devices s')
      <-> exists d, Some d ∈ reports /\ named d = true /\ id d = i).
Proof.
  intros Hperm Hidle s'. subst s'.
  unfold WeeklyReset.startScan. rewrite Hperm, Hidle. cbn [negb].
  split.
  - apply scan_reports_NoDup. cbn. apply NoDup_nil_2.
  - rewrite scan_reports_ids. cbn [onApp setIsScanning setDevices devices fmap list_fmap].
    split; [| auto].
    intros [H | H]; [now apply elem_of_nil in H | assumption].
Qed.

Lemma scan_lists_each_named_device_once_witness :
  let s' := fold_left (fun s r => WeeklyReset.onScanResult false r s)
              [Some band; None; Some band]
              (WeeklyReset.startScan false 0 ∅ (initialScreen ∅)) in
  NoDup (id <$> devices s')
  /\ (id band ∈ (id <$> devices s')
      <-> exists d, Some d ∈ [Some band; None; Some band]
                    /\ named d = true /\ id d = id band).
Proof.
  apply (scan_lists_each_named_device_once false 0 ∅
           [Some band; None; Some band] (initialScreen ∅) (id band));
    reflexivity.
Defined.

(** In "part_000" the scan callback lists every reported device, named
    or not: after any run of reports the list holds exactly the ids
    reported, each once. *)
Theorem part000_scan_lists_every_device_once
    (reports : list (option Device)) (i : string) :
  let listed := fold_left (fun l r => Part000.onScanResult false r l) reports [] in
  NoDup (id <$> listed)
  /\ (i ∈ (id <$> listed) <-> exists d, Some d ∈ reports /\ id d = i).
Proof.
  assert (forall (reports : list (option Device)) (l : list Device),
             (NoDup (id <$> l) ->
              NoDup (id <$> fold_left
                              (fun l r => Part000.onScanResult false r l)
                              reports l))
             /\ (i ∈ (id <$> fold_left
                               (fun l r => Part000.onScanResult false r l)
                               reports l)
                 <-> i ∈ (id <$> l)
                     \/ exists d, Some d ∈ reports /\ id d = i)) as Hgen.
  { clear reports. induction reports as [| r reports IH]; intros l.
    - cbn. split; [auto |]. split; [auto |].
      intros [H | (d & Hd & _)]; [assumption | now apply elem_of_nil in Hd].
    - cbn [fold_left]. destruct (IH (Part000.onScanResult false r l))
        as [IHnd IHin]. clear IH.
      unfold Part000.onScanResult in *. destruct r as [d |].
      + split; [intros Hnd; apply IHnd; now apply addDevice_NoDup |].
        rewrite IHin, addDevice_ids. split.
        * intros [[H | ->] | (d' & Hd' & Hi)]; [auto | |].
          -- right. exists d. split; [left | reflexivity].
          -- right. exists d'. split; [now right | assumption].
        * intros [H | (d' & Hd' & Hi)]; [auto |].
          apply elem_of_cons in Hd' as [[= ->] | Hd']; [auto |].
          right. exists d'. auto.
      + split; [exact IHnd |]. rewrite IHin. split.
        * intros [H | (d' & Hd' & Hi)]; [auto |].
          right. exists d'. split; [now right | assumption].
        * intros [H | (d' & Hd' & Hi)]; [auto |].
          apply elem_of_cons in Hd' as [[=] | Hd'].
          right. exists d'. auto. }
  destruct (Hgen reports []) as [Hnd Hin]. cbv zeta. split.
  - apply Hnd. cbn. apply NoDup_nil_2.
  - rewrite Hin. cbn. split; [| auto].
    intros [H | H]; [now apply elem_of_nil in H | assumption].
Qed.

(** While a scan is running, or without permission, [startScan] keeps
    the device list: only a permitted start from the idle state empties
    it. *)
Theorem startScan_keeps_list_unless_started
    (android : bool) (apiLevel : Z) (granted : gset string) (s : Screen) :
  devices (WeeklyReset.startScan android apiLevel granted s)
  = if WeeklyReset.requestPermissions android apiLevel granted
       && negb (isScanning s)
    then [] else devices s.
Proof.
  unfold WeeklyReset.startScan.
  destruct (WeeklyReset.requestPermissions android apiLevel granted),
    (isScanning s); reflexivity.
Qed.

(** On Android 12 and later (API level 31 and up) the scan is permitted
    by the two Bluetooth permissions alone, on earlier versions by the
    location permission alone; the activity-recognition permission, which
    is always requested, never decides. *)
Theorem permission_does_not_depend_on_activity_recognition
    (android : bool) (apiLevel : Z) (granted : gset string) :
  WeeklyReset.requestPermissions android apiLevel
    (granted ∪ {["android.permission.ACTIVITY_RECOGNITION"]})
  = WeeklyReset.requestPermissions android apiLevel granted
  /\ WeeklyReset.requestPermissions android apiLevel
       (granted ∖ {["android.permission.ACTIVITY_RECOGNITION"]})
     = WeeklyReset.requestPermissions android apiLevel granted.
Proof.
  assert (forall p : string,
             p <> "android.permission.ACTIVITY_RECOGNITION" ->
             bool_decide
               (p ∈ granted ∪ {["android.permission.ACTIVITY_RECOGNITION"]})
             = bool_decide (p ∈ granted)
             /\ bool_decide
                  (p ∈ granted ∖ {["android.permission.ACTIVITY_RECOGNITION"]})
                = bool_decide (p ∈ granted)) as Hother.
  { intros p Hp. split; apply bool_decide_ext.
    - rewrite elem_of_union, elem_of_singleton. tauto.
    - rewrite elem_of_difference, elem_of_singleton. tauto. }
  destruct (Hother "android.permission.ACCESS_FINE_LOCATION")
    as [L1 L2]; [discriminate |].
  destruct (Hother "android.permission.BLUETOOTH_SCAN")
    as [S1 S2]; [discriminate |].
  destruct (Hother "android.permission.BLUETOOTH_CONNECT")
    as [C1 C2]; [discriminate |].
  unfold WeeklyReset.requestPermissions.
  split; destruct android; try reflexivity; destruct (apiLevel <? 31);
    rewrite ?L1, ?L2, ?S1, ?S2, ?C1, ?C2; reflexivity.
Qed.

End Scanning.

Section PhoneSteps.

(** The phone's step count of "weekly reset" is what "part_000" computes
    once the sample sets of every other source are removed: the sum of
    the first set whose source is the estimated-steps one, and 0 when
    there is none.  Sets of other sources, wherever they stand, do not
    count. *)
Theorem phone_steps_ignore_other_sources
    (res : list GoogleFit.t) (s : Screen) :
  googleSteps (WeeklyReset.fetchGoogleFitSteps true (Some res) s)
  = Part000.fetchSteps true (Some (List.filter isEstimated res)) (googleSteps s)
  /\ app (WeeklyReset.fetchGoogleFitSteps true (Some res) s) = app s
  /\ devices (WeeklyReset.fetchGoogleFitSteps true (Some res) s) = devices s.
Proof.
  split; [| split; reflexivity].
  cbn. unfold estimatedTotal. fold isEstimated.
  induction res as [| r res IH]; [reflexivity |].
  cbn [find List.filter]. unfold isEstimated at 1 3.
  destruct (String.eqb (GoogleFit.source r) _); [reflexivity | exact IH].
Qed.

End PhoneSteps.

(* ================================================================== *)
(** * Saving and loading                                               *)
(* ================================================================== *)

Section Persistence.

Lemma weeklyReset_keys_differ : WeeklyReset.RESET_KEY <> WeeklyReset.STORAGE_KEY.
Proof. discriminate. Qed.

Lemma addWeeklyTotal_keys_differ :
  AddWeeklyTotal.RESET_TRACKER_KEY <> AddWeeklyTotal.STORAGE_KEY.
Proof. discriminate. Qed.

(** What [loadData] of "weekly reset" makes of a store that holds a saved
    object: the records of the object, with the weekly record zeroed when
    the Monday reset is due. *)
Lemma weeklyReset_loadData_saved (now : Date) (store : gmap string Stored)
    (data : SavedData) :
  store !! WeeklyReset.STORAGE_KEY = Some (SJson data) ->
  let st' := WeeklyReset.loadData now (initial store) in
  dailyRecords st' = sd_dailyRecords data
  /\ bandSteps st' = Daily.steps (sd_dailyRecords data)
  /\ hrHistory st' = loadedHistory (sd_hrHistory data)
  /\ hrFluctuations st'
     = match sd_hrFluctuations data with Some log => log | None => [] end
  /\ weeklyStats st'
     = (if WeeklyReset.resetDue now (initial store) then Weekly.zero
        else match sd_weeklyStats data with
             | Some weekly => weekly
             | None =>
                 weeklyStats
                   (WeeklyReset.updateWeeklyStats
                      (Daily.steps (sd_dailyRecords data)) (initial store))
             end)
  /\ heartRate st' = 0
  /\ connectedDevice st' = None
  /\ stepInterval st' = false
  /\ hrSubscription st' = false.
Proof.
  intros Hsaved st'. subst st'.
  unfold WeeklyReset.loadData, WeeklyReset.checkWeeklyReset.
  fold (WeeklyReset.resetDue now (initial store)).
  destruct (WeeklyReset.resetDue now (initial store)).
  - unfold getItem. cbn [setItem setWeeklyStats storage initial].
    rewrite (lookup_insert_ne _ WeeklyReset.RESET_KEY) by discriminate.
    rewrite Hsaved. cbn [setItem storage]. rewrite lookup_insert_eq.
    cbn. repeat split.
  - unfold getItem. cbn [storage initial]. rewrite Hsaved.
    destruct (sd_weeklyStats data); cbn; repeat split.
Qed.

(** Round trip through the store in "weekly reset": after a manual save
    and a restart, [loadData] gives back the daily record, the
    fluctuation log, the history window (the initial window for an empty
    one) and, unless the Monday reset is due, the weekly record; the band
    step count comes back as the record's step count; the current heart
    rate and the connection do not come back.  With a positive step
    count the auto-save leaves the same store as the manual save. *)
Theorem weeklyReset_save_load_round_trip (now : Date) (st : App) :
  (let st' := WeeklyReset.loadData now
                (initial (storage (WeeklyReset.handleManualSave st))) in
   dailyRecords st' = dailyRecords st
   /\ bandSteps st' = Daily.steps (dailyRecords st)
   /\ hrHistory st' = loadedHistory (hrHistory st)
   /\ hrFluctuations st' = hrFluctuations st
   /\ weeklyStats st'
      = (if WeeklyReset.resetDue now st then Weekly.zero else weeklyStats st)
   /\ heartRate st' = 0
   /\ connectedDevice st' = None)
  /\ (0 < Daily.steps (dailyRecords st) ->
      storage (WeeklyReset.autoSave st)
      = storage (WeeklyReset.handleManualSave st)).
Proof.
  split.
  - destruct (weeklyReset_loadData_saved now
                (storage (WeeklyReset.handleManualSave st))
                (WeeklyReset.dataToSave st))
      as (H1 & H2 & H3 & H4 & H5 & H6 & H7 & _).
    { cbn. apply lookup_insert_eq. }
    cbv zeta. rewrite H1, H2, H3, H4, H5, H6, H7.
    repeat split.
    assert (WeeklyReset.resetDue now
              (initial (storage (WeeklyReset.handleManualSave st)))
            = WeeklyReset.resetDue now st) as ->; [| reflexivity].
    unfold WeeklyReset.resetDue, getItem. cbn [storage initial
      WeeklyReset.handleManualSave setItem].
    now rewrite lookup_insert_ne by discriminate.
  - intros Hpos. unfold WeeklyReset.autoSave.
    apply Z.ltb_lt in Hpos. now rewrite Hpos.
Qed.

Lemma weeklyReset_save_load_round_trip_witness :
  storage (WeeklyReset.autoSave walked)
  = storage (WeeklyReset.handleManualSave walked).
Proof.
  apply (weeklyReset_save_load_round_trip monday walked).
  apply Z.ltb_lt. reflexivity.
Defined.

(** A saved object written by an earlier variant has no weekly record:
    [loadData] of "weekly reset" then derives one from the saved step
    count, seven times that count, unless the Monday reset is due. *)
Theorem weeklyReset_loads_earlier_saves (now : Date) (st : App) :
  let st' := WeeklyReset.loadData now
               (initial (storage (Part002.handleManualSave st))) in
  dailyRecords st' = dailyRecords st
  /\ hrFluctuations st' = []
  /\ weeklyStats st'
     = (if WeeklyReset.resetDue now st then Weekly.zero
        else Weekly.mk (Daily.steps (dailyRecords st) * 7)
               (caloriesOf (Daily.steps (dailyRecords st) * 7))
               (distanceOf (Daily.steps (dailyRecords st) * 7))).
Proof.
  destruct (weeklyReset_loadData_saved now
              (storage (Part002.handleManualSave st)) (Part002.dataToSave st))
    as (H1 & _ & _ & H4 & H5 & _).
  { cbn. apply lookup_insert_eq. }
  cbv zeta. rewrite H1, H4, H5. repeat split.
  assert (WeeklyReset.resetDue now
            (initial (storage (Part002.handleManualSave st)))
          = WeeklyReset.resetDue now st) as ->; [| reflexivity].
  unfold WeeklyReset.resetDue, getItem.
  cbn [storage initial Part002.handleManualSave setItem].
  now rewrite lookup_insert_ne by discriminate.
Qed.

(** In "add weekly total" the Monday reset does not survive [loadData]
    when a saved object exists: the reset zeroes the daily record, the
    band step count and the weekly record and stores the marker, and the
    load that follows puts the saved daily record back and derives the
    weekly record from its step count.  Only the marker tells afterwards
    that the reset ran. *)
Theorem addWeeklyTotal_load_undoes_reset (today : Date) (st : App)
    (data : SavedData) :
  getItem AddWeeklyTotal.STORAGE_KEY st = Some (SJson data) ->
  let st' := AddWeeklyTotal.loadData today st in
  dailyRecords st' = sd_dailyRecords data
  /\ bandSteps st' = Daily.steps (sd_dailyRecords data)
  /\ weeklyStats st'
     = Weekly.mk (Daily.steps (sd_dailyRecords data))
         (caloriesOf (Daily.steps (sd_dailyRecords data)))
         (distanceOf (Daily.steps (sd_dailyRecords data)))
  /\ AddWeeklyTotal.resetDue today st' = false
  /\ getItem AddWeeklyTotal.STORAGE_KEY st' = Some (SJson data).
Proof.
  intros Hsaved st'. subst st'. unfold AddWeeklyTotal.loadData.
  assert (getItem AddWeeklyTotal.STORAGE_KEY
            (AddWeeklyTotal.handleWeeklyReset today st) = Some (SJson data))
    as Hkept.
  { unfold AddWeeklyTotal.handleWeeklyReset.
    destruct (getDay today =? 1); [| assumption].
    destruct (differs _ _); [| assumption].
    unfold getItem in *. cbn [setItem storage setBandSteps setDailyRecords
      setWeeklyStats]. now rewrite lookup_insert_ne by discriminate. }
  rewrite Hkept.
  pose proof (handleWeeklyReset_settles today st) as Hsettled.
  repeat split; assumption.
Qed.

Lemma addWeeklyTotal_load_undoes_reset_witness :
  let st := AddWeeklyTotal.handleManualSave walked in
  let st' := AddWeeklyTotal.loadData monday st in
  dailyRecords st' = dailyRecords walked
  /\ bandSteps st' = 5000
  /\ weeklyStats st' = Weekly.mk 5000 (caloriesOf 5000) (distanceOf 5000)
  /\ AddWeeklyTotal.resetDue monday st' = false
  /\ getItem AddWeeklyTotal.STORAGE_KEY st'
     = Some (SJson (AddWeeklyTotal.dataToSave walked)).
Proof.
  apply (addWeeklyTotal_load_undoes_reset monday
           (AddWeeklyTotal.handleManualSave walked)
           (AddWeeklyTotal.dataToSave walked)).
  reflexivity.
Defined.

(** Round trip through the store in "part_002": after a manual save and
    a restart, [loadData] gives back the daily record and the history
    window (the initial window for an empty one), and the band step count
    as the record's step count; a store without a saved object leaves the
    initial state as it is. *)
Theorem part002_save_load_round_trip (st : App) :
  (let st' := Part002.loadData (initial (storage (Part002.handleManualSave st))) in
   dailyRecords st' = dailyRecords st
   /\ bandSteps st' = Daily.steps (dailyRecords st)
   /\ hrHistory st' = loadedHistory (hrHistory st)
   /\ heartRate st' = 0)
  /\ Part002.loadData (initial ∅) = initial ∅.
Proof.
  split; [| reflexivity].
  unfold Part002.loadData, getItem.
  cbn [storage initial Part002.handleManualSave setItem].
  rewrite lookup_insert_eq. cbn. repeat split.
Qed.

End Persistence.

(* ================================================================== *)
(** * Invariants of the "weekly reset" component                       *)
(* ================================================================== *)

Section Invariants.

Lemma metrics_of_zero : caloriesOf 0 = 0 /\ distanceOf 0 = 0%float.
Proof. split; reflexivity. Qed.

Lemma bpmOk_accepted (n : Z) : 30 < n < 220 -> bpmOk n.
Proof. intros H. now right. Qed.

Lemma historyOk_append (h : list Z) (n : Z) :
  historyOk h -> bpmOk n -> historyOk (appendHistory h n).
Proof.
  intros [_ Hall] Hn. split.
  - rewrite appendHistory_length. lia.
  - unfold appendHistory, JS.slice_last. apply Forall_app. split.
    + now apply Forall_drop.
    + now constructor.
Qed.

Lemma logOk_append (log : list Fluctuation) (n : Z) (timestamp : string) :
  logOk log -> 30 < n < 220 -> logOk (appendFluctuation log n timestamp).
Proof.
  intros [_ Hall] Hn. unfold appendFluctuation. split.
  - rewrite length_app, slice_last_length. cbn [length]. lia.
  - unfold JS.slice_last. apply Forall_app. split.
    + now apply Forall_drop.
    + now constructor.
Qed.

Lemma initial_history_ok : historyOk [0; 0; 0; 0; 0].
Proof.
  split; [cbn; lia |]. repeat constructor.
Qed.

Lemma loadedHistory_ok (h : list Z) : historyOk h -> historyOk (loadedHistory h).
Proof.
  destruct h; [intros _; apply initial_history_ok | auto].
Qed.

(** Splits a well-formedness goal into its parts and closes the parts
    that are hypotheses or hold by computation. *)
Ltac ok_parts :=
  unfold appOk, recordOk; cbn;
  split_and!;
  try first [assumption | reflexivity | lia
            | (apply bpmOk_accepted; assumption)].

Lemma appOk_acceptHeartRate (n : Z) (timestamp : string) (st : App) :
  30 < n < 220 -> appOk st -> appOk (WeeklyReset.acceptHeartRate n timestamp st).
Proof.
  intros Hn (Hb & (Hs & Hc & Hd & Ha) & Hw & Hh & Hhist & Hlog & Hch & Hst).
  ok_parts.
  - apply historyOk_append; [assumption | now apply bpmOk_accepted].
  - now apply logOk_append.
Qed.

Lemma appOk_acceptSteps (n : Z) (st : App) :
  0 < n < 2 ^ 24 -> appOk st -> appOk (WeeklyReset.acceptSteps n st).
Proof.
  intros Hn (Hb & (Hs & Hc & Hd & Ha) & Hw & Hh & Hhist & Hlog & Hch & Hst).
  ok_parts. now right.
Qed.

Lemma appOk_dispatch (ev : WeeklyReset.event) (st : App) :
  appOk st -> appOk (WeeklyReset.dispatch ev st).
Proof.
  intros Hok. destruct ev as [err value timestamp | c primary alt |];
    cbn [WeeklyReset.dispatch].
  - destruct (hrSubscription st); [| assumption].
    destruct (weeklyReset_hr_outcome err value timestamp) as (o & Ho & ->).
    destruct o as [n |]; [| assumption].
    apply appOk_acceptHeartRate; auto.
  - destruct (stepInterval st); [| assumption].
    destruct (weeklyReset_tick_outcome c primary alt) as (o & Ho & ->).
    destruct (deviceRef st); [| assumption].
    destruct o as [n |]; [| assumption].
    apply appOk_acceptSteps; auto.
  - destruct Hok as (Hb & (Hs & Hc & Hd & Ha) & Hw & Hh & Hhist & Hlog & Hch & Hst).
    ok_parts.
Qed.

Lemma savedOk_dataToSave (st : App) : appOk st -> savedOk (WeeklyReset.dataToSave st).
Proof.
  intros (Hb & Hr & Hw & Hh & Hhist & Hlog & Hch & Hst).
  unfold savedOk. cbn. split_and!; try assumption.
  - now intros log [= <-].
  - now intros w [= <-].
Qed.

Lemma storeOk_insert_saved (store : gmap string Stored) (data : SavedData) :
  savedOk data -> storeOk (<[WeeklyReset.STORAGE_KEY := SJson data]> store).
Proof.
  intros Hdata data'. rewrite lookup_insert_eq. now intros [= <-].
Qed.

Lemma storeOk_insert_marker (store : gmap string Stored) (s : string) :
  storeOk store -> storeOk (<[WeeklyReset.RESET_KEY := SDate s]> store).
Proof.
  intros Hst data. rewrite lookup_insert_ne by discriminate. apply Hst.
Qed.

Lemma appOk_handleManualSave (st : App) :
  appOk st -> appOk (WeeklyReset.handleManualSave st).
Proof.
  intros Hok. pose proof (savedOk_dataToSave st Hok) as Hsaved.
  destruct Hok as (Hb & (Hs & Hc & Hd & Ha) & Hw & Hh & Hhist & Hlog & Hch & Hst).
  unfold WeeklyReset.handleManualSave. ok_parts.
  now apply storeOk_insert_saved.
Qed.

Lemma appOk_autoSave (st : App) : appOk st -> appOk (WeeklyReset.autoSave st).
Proof.
  intros Hok. unfold WeeklyReset.autoSave.
  destruct (0 <? Daily.steps (dailyRecords st)); [| assumption].
  now apply appOk_handleManualSave.
Qed.

Lemma appOk_checkWeeklyReset (now : Date) (st : App) :
  appOk st -> appOk (WeeklyReset.checkWeeklyReset now st).
Proof.
  intros Hok.
  unfold WeeklyReset.checkWeeklyReset.
  destruct (_ && _); [| assumption].
  destruct Hok as (Hb & (Hs & Hc & Hd & Ha) & Hw & Hh & Hhist & Hlog & Hch & Hst).
  unfold getItem. cbn [setItem setWeeklyStats storage].
  rewrite lookup_insert_ne by discriminate.
  destruct (storage st !! WeeklyReset.STORAGE_KEY) as [[s | data] |] eqn:Hsaved;
    ok_parts; try (now left); try (now apply storeOk_insert_marker).
  apply storeOk_insert_saved.
  destruct (Hst data Hsaved) as (Hr' & Hh' & Hl' & Hw').
  unfold savedOk. cbn. split_and!; try assumption.
  intros w [= <-]. now left.
Qed.

Lemma appOk_loadData (now : Date) (st : App) :
  appOk st -> appOk (WeeklyReset.loadData now st).
Proof.
  intros Hok. apply (appOk_checkWeeklyReset now) in Hok.
  unfold WeeklyReset.loadData.
  destruct (getItem WeeklyReset.STORAGE_KEY (WeeklyReset.checkWeeklyReset now st))
    as [[s | data] |] eqn:Hsaved; try assumption.
  destruct Hok as (Hb & Hr & Hw & Hh & Hhist & Hlog & Hch & Hst).
  destruct (Hst data Hsaved) as ((Hs' & Hc' & Hd' & Ha') & Hh' & Hl' & Hw').
  assert (logOk match sd_hrFluctuations data with
                | Some log => log
                | None => []
                end) as Hlog'.
  { destruct (sd_hrFluctuations data) as [log |]; [now apply Hl' |].
    split; [cbn; lia | constructor]. }
  destruct (sd_weeklyStats data) as [w |] eqn:Hweekly;
    ok_parts; try (now apply loadedHistory_ok).
  - now apply Hw'.
  - now right.
Qed.

Lemma appOk_connectToDevice (device : Device) (linked : bool) (st : App) :
  appOk st -> appOk (WeeklyReset.connectToDevice device linked st).
Proof.
  intros (Hb & (Hs & Hc & Hd & Ha) & Hw & Hh & Hhist & Hlog & Hch & Hst).
  destruct linked; ok_parts.
Qed.

Lemma appOk_initial : appOk (initial ∅).
Proof.
  ok_parts; try (now left).
  - apply initial_history_ok.
  - split; [cbn; lia | constructor].
  - intros data. rewrite lookup_empty. discriminate.
Qed.

Lemma appOk_initial_store (store : gmap string Stored) :
  storeOk store -> appOk (initial store).
Proof.
  intros Hst. ok_parts; try (now left).
  - apply initial_history_ok.
  - split; [cbn; lia | constructor].
Qed.

Lemma devicesOk_nil : devicesOk [].
Proof.
  split; [apply NoDup_nil_2 | constructor].
Qed.

Lemma screenOk_perform (a : WeeklyReset.action) (s : Screen) :
  screenOk s -> screenOk (WeeklyReset.perform a s).
Proof.
  intros [Happ Hdev].
  destruct a as [now | | android apiLevel granted | error device | |
                 | device linked | ev | isAuthorized res];
    cbn [WeeklyReset.perform].
  - split; [| assumption]. cbn. now apply appOk_autoSave, appOk_loadData.
  - split; [| assumption]. cbn. now apply appOk_handleManualSave.
  - unfold WeeklyReset.startScan.
    destruct (WeeklyReset.requestPermissions android apiLevel granted);
      cbn [negb].
    + destruct (isScanning s); [now split |].
      split; [| apply devicesOk_nil].
      destruct Happ as (Hb & (Hs & Hc & Hd & Ha) & Hw & Hh & Hhist & Hlog & Hch & Hst).
      ok_parts.
    + split; [| assumption].
      destruct Happ as (Hb & (Hs & Hc & Hd & Ha) & Hw & Hh & Hhist & Hlog & Hch & Hst).
      ok_parts.
  - unfold WeeklyReset.onScanResult. destruct error.
    + split; [| assumption].
      destruct Happ as (Hb & (Hs & Hc & Hd & Ha) & Hw & Hh & Hhist & Hlog & Hch & Hst).
      ok_parts.
    + destruct device as [d |]; [| now split].
      destruct (named d) eqn:Hname; [| now split].
      split; [assumption |]. destruct Hdev as [Hnd Hall]. split; cbn.
      * now apply addDevice_NoDup.
      * now apply addDevice_named.
  - split; [| assumption].
    destruct Happ as (Hb & (Hs & Hc & Hd & Ha) & Hw & Hh & Hhist & Hlog & Hch & Hst).
    ok_parts.
  - split; [| apply devicesOk_nil].
    destruct Happ as (Hb & (Hs & Hc & Hd & Ha) & Hw & Hh & Hhist & Hlog & Hch & Hst).
    ok_parts.
  - split; [| assumption]. cbn. now apply appOk_connectToDevice.
  - split; [| assumption]. cbn. unfold WeeklyReset.step.
    now apply appOk_autoSave, appOk_dispatch.
  - unfold WeeklyReset.fetchGoogleFitSteps.
    destruct isAuthorized; cbn [negb]; [| now split].
    destruct res; now split.
Qed.

Lemma screenOk_performAll (acts : list WeeklyReset.action) (s : Screen) :
  screenOk s -> screenOk (WeeklyReset.performAll acts s).
Proof.
  revert s. induction acts as [| a acts IH]; intros s Hok; [assumption |].
  cbn. apply IH. now apply screenOk_perform.
Qed.

Lemma screenOk_reachable (acts : list WeeklyReset.action) :
  screenOk (WeeklyReset.performAll acts (initialScreen ∅)).
Proof.
  apply screenOk_performAll. split; [apply appOk_initial | apply devicesOk_nil].
Qed.

End Invariants.

(* ================================================================== *)
(** * What holds in every reachable state                              *)
(* ================================================================== *)

Section Reachable.

(** Whatever happens to the component started on an empty store, the
    displayed band step count is the daily record's step count, that
    count fits 24 bits, the record's calories and distance are the
    conversions of that count, and the weekly record is zero or derived
    from seven times that count. *)
Theorem reachable_metrics_follow_step_count (acts : list WeeklyReset.action) :
  let st := app (WeeklyReset.performAll acts (initialScreen ∅)) in
  bandSteps st = Daily.steps (dailyRecords st)
  /\ 0 <= Daily.steps (dailyRecords st) < 2 ^ 24
  /\ Daily.calories (dailyRecords st) = caloriesOf (Daily.steps (dailyRecords st))
  /\ Daily.distance (dailyRecords st) = distanceOf (Daily.steps (dailyRecords st))
  /\ (weeklyStats st = Weekly.zero
      \/ weeklyStats st
         = Weekly.mk (Daily.steps (dailyRecords st) * 7)
             (caloriesOf (Daily.steps (dailyRecords st) * 7))
             (distanceOf (Daily.steps (dailyRecords st) * 7))).
Proof.
  destruct (screenOk_reachable acts)
    as [(Hb & (Hs & Hc & Hd & Ha) & Hw & _) _].
  cbv zeta. split_and!; first [assumption | lia].
Qed.

(** The step timer and the heart-rate subscription are always both live
    or both released: no action arms or drops one without the other. *)
Theorem reachable_channels_paired (acts : list WeeklyReset.action) :
  let st := app (WeeklyReset.performAll acts (initialScreen ∅)) in
  stepInterval st = hrSubscription st.
Proof.
  destruct (screenOk_reachable acts)
    as [(_ & _ & _ & _ & _ & _ & Hch & _) _].
  exact Hch.
Qed.

(** The history window never holds more than 10 values and the
    fluctuation log never more than 11 entries; every value in either,
    the current heart rate and the daily record's heart rate are an
    accepted sample, strictly between 30 and 220, or (log apart) the
    initial 0. *)
Theorem reachable_heart_rate_cells_bounded (acts : list WeeklyReset.action) :
  let st := app (WeeklyReset.performAll acts (initialScreen ∅)) in
  (length (hrHistory st) <= 10)%nat
  /\ Forall (fun v => v = 0 \/ 30 < v < 220) (hrHistory st)
  /\ (length (hrFluctuations st) <= 11)%nat
  /\ Forall (fun e => 30 < value e < 220) (hrFluctuations st)
  /\ (heartRate st = 0 \/ 30 < heartRate st < 220)
  /\ (Daily.avgHr (dailyRecords st) = 0
      \/ 30 < Daily.avgHr (dailyRecords st) < 220).
Proof.
  destruct (screenOk_reachable acts)
    as [(_ & (_ & _ & _ & Ha) & _ & Hh & [Hlen Hall] & [Hlen' Hall'] & _) _].
  cbv zeta. split_and!; first [assumption | lia].
Qed.

(** The device list never shows an id twice and never shows a device
    without a name. *)
Theorem reachable_device_list_distinct (acts : list WeeklyReset.action) :
  let s := WeeklyReset.performAll acts (initialScreen ∅) in
  NoDup (id <$> devices s)
  /\ Forall (fun d => name d <> "") (devices s).
Proof.
  destruct (screenOk_reachable acts) as [_ [Hnd Hall]].
  cbv zeta. split; [assumption |].
  eapply Forall_impl; [exact Hall |].
  intros d Hd Hempty. unfold named in Hd. rewrite Hempty in Hd. discriminate.
Qed.

(** The same holds across restarts: a component started on the store
    that any earlier run left behind again keeps the band step count,
    the daily record and its derived metrics in step. *)
Theorem restart_keeps_metrics_consistent
    (before after : list WeeklyReset.action) :
  let left_behind :=
    storage (app (WeeklyReset.performAll before (initialScreen ∅))) in
  let st := app (WeeklyReset.performAll after (initialScreen left_behind)) in
  bandSteps st = Daily.steps (dailyRecords st)
  /\ 0 <= Daily.steps (dailyRecords st) < 2 ^ 24
  /\ Daily.calories (dailyRecords st) = caloriesOf (Daily.steps (dailyRecords st))
  /\ Daily.distance (dailyRecords st) = distanceOf (Daily.steps (dailyRecords st))
  /\ (length (hrHistory st) <= 10)%nat.
Proof.
  destruct (screenOk_reachable before)
    as [(_ & _ & _ & _ & _ & _ & _ & Hst) _].
  destruct (screenOk_performAll after
              (initialScreen
                 (storage (app (WeeklyReset.performAll before (initialScreen ∅))))))
    as [(Hb & (Hs & Hc & Hd & Ha) & _ & _ & [Hlen _] & _) _].
  { split; [now apply appOk_initial_store | apply devicesOk_nil]. }
  cbv zeta. split_and!; first [assumption | lia].
Qed.

(** Scanning, connecting, the Bluetooth reset and the phone's step poll
    never change the telemetry or the store. *)
Theorem only_deliveries_and_loads_change_telemetry (s : Screen) :
  (forall android apiLevel granted,
      let s' := WeeklyReset.perform
                  (WeeklyReset.StartScan android apiLevel granted) s in
      readModel (app s') = readModel (app s)
      /\ storage (app s') = storage (app s))
  /\ (forall error device,
         let s' := WeeklyReset.perform (WeeklyReset.ScanResult error device) s in
         readModel (app s') = readModel (app s)
         /\ storage (app s') = storage (app s))
  /\ (let s' := WeeklyReset.perform WeeklyReset.ScanTimeout s in
      readModel (app s') = readModel (app s)
      /\ storage (app s') = storage (app s))
  /\ (let s' := WeeklyReset.perform WeeklyReset.ResetBluetooth s in
      readModel (app s') = readModel (app s)
      /\ storage (app s') = storage (app s))
  /\ (forall device linked,
         let s' := WeeklyReset.perform (WeeklyReset.Connect device linked) s in
         readModel (app s') = readModel (app s)
         /\ storage (app s') = storage (app s))
  /\ (forall isAuthorized res,
         let s' := WeeklyReset.perform
                     (WeeklyReset.GoogleFitPoll isAuthorized res) s in
         readModel (app s') = readModel (app s)
         /\ storage (app s') = storage (app s)).
Proof.
  split_and!.
  - intros android apiLevel granted. cbn. unfold WeeklyReset.startScan.
    destruct (WeeklyReset.requestPermissions android apiLevel granted),
      (isScanning s); split; reflexivity.
  - intros error device. cbn. unfold WeeklyReset.onScanResult.
    destruct error; [split; reflexivity |].
    destruct device as [d |]; [| split; reflexivity].
    destruct (named d); split; reflexivity.
  - split; reflexivity.
  - split; reflexivity.
  - intros device linked. destruct linked; split; reflexivity.
  - intros isAuthorized res. cbn. unfold WeeklyReset.fetchGoogleFitSteps.
    destruct isAuthorized, res; split; reflexivity.
Qed.

(** ** The store without manual saves *)

Lemma checkWeeklyReset_saved_steps (now : Date) (st : App) (data : SavedData) :
  getItem WeeklyReset.STORAGE_KEY (WeeklyReset.checkWeeklyReset now st)
  = Some (SJson data) ->
  exists data0,
    getItem WeeklyReset.STORAGE_KEY st = Some (SJson data0)
    /\ sd_dailyRecords data = sd_dailyRecords data0.
Proof.
  unfold WeeklyReset.checkWeeklyReset.
  destruct (_ && _); [| intros H; now exists data].
  intros Hsaved. unfold getItem in *. cbv zeta in Hsaved.
  cbn [setItem setWeeklyStats storage] in Hsaved.
  rewrite lookup_insert_ne in Hsaved by discriminate.
  destruct (storage st !! WeeklyReset.STORAGE_KEY) as [[s | data0] |] eqn:Hst0;
    cbn [setItem setWeeklyStats storage] in Hsaved;
    rewrite ?lookup_insert_eq, ?lookup_insert_ne in Hsaved by discriminate;
    rewrite ?Hst0 in Hsaved; try discriminate.
  injection Hsaved as <-. now exists data0.
Qed.

Lemma loadData_storage (now : Date) (st : App) :
  storage (WeeklyReset.loadData now st)
  = storage (WeeklyReset.checkWeeklyReset now st).
Proof.
  unfold WeeklyReset.loadData.
  destruct (getItem _ _) as [[s | data] |]; try reflexivity.
  destruct (sd_weeklyStats data); reflexivity.
Qed.

Lemma autoSave_saved_steps (st : App) (data : SavedData) :
  getItem WeeklyReset.STORAGE_KEY (WeeklyReset.autoSave st) = Some (SJson data) ->
  0 < Daily.steps (sd_dailyRecords data)
  \/ getItem WeeklyReset.STORAGE_KEY st = Some (SJson data).
Proof.
  unfold WeeklyReset.autoSave.
  destruct (Z.ltb_spec 0 (Daily.steps (dailyRecords st))); [| auto].
  unfold getItem. cbn [setItem storage]. rewrite lookup_insert_eq.
  intros [= <-]. now left.
Qed.

(** As long as "Save Now" is never pressed, the store never holds a
    daily record with a step count of 0: what is saved was saved by the
    auto-save, with a positive count, and the Monday reset rewrites the
    weekly part of the saved object only. *)
Theorem store_holds_positive_steps_without_manual_save
    (acts : list WeeklyReset.action) (data : SavedData) :
  WeeklyReset.ManualSave ∉ acts ->
  getItem WeeklyReset.STORAGE_KEY
    (app (WeeklyReset.performAll acts (initialScreen ∅)))
  = Some (SJson data) ->
  0 < Daily.steps (sd_dailyRecords data).
Proof.
  assert (forall (acts : list WeeklyReset.action) (s : Screen),
             WeeklyReset.ManualSave ∉ acts ->
             (forall data,
                 getItem WeeklyReset.STORAGE_KEY (app s) = Some (SJson data) ->
                 0 < Daily.steps (sd_dailyRecords data)) ->
             forall data,
               getItem WeeklyReset.STORAGE_KEY
                 (app (WeeklyReset.performAll acts s)) = Some (SJson data) ->
               0 < Daily.steps (sd_dailyRecords data)) as Hgen.
  { clear. induction acts as [| a acts IH]; intros s Hno Hpos; [exact Hpos |].
    apply not_elem_of_cons in Hno as [Ha Hno].
    cbn [WeeklyReset.performAll fold_left].
    apply (IH (WeeklyReset.perform a s) Hno). clear IH Hno acts.
    intros data Hsaved.
    destruct a as [now | | android apiLevel granted | error device | |
                   | device linked | ev | isAuthorized res];
      try congruence.
    - cbn in Hsaved. apply autoSave_saved_steps in Hsaved as [H | Hsaved];
        [assumption |].
      unfold getItem in Hsaved. rewrite loadData_storage in Hsaved.
      apply checkWeeklyReset_saved_steps in Hsaved as (data0 & H0 & ->).
      now apply Hpos.
    - apply Hpos. rewrite <- Hsaved. cbn. unfold WeeklyReset.startScan.
      now destruct (WeeklyReset.requestPermissions android apiLevel granted),
        (isScanning s).
    - apply Hpos. rewrite <- Hsaved. cbn. unfold WeeklyReset.onScanResult.
      destruct error; [reflexivity |].
      destruct device as [d |]; [| reflexivity].
      now destruct (named d).
    - now apply Hpos.
    - now apply Hpos.
    - apply Hpos. rewrite <- Hsaved. now destruct linked.
    - cbn in Hsaved. unfold WeeklyReset.step in Hsaved.
      apply autoSave_saved_steps in Hsaved as [H | Hsaved]; [assumption |].
      apply Hpos. unfold getItem in *.
      now rewrite weeklyReset_dispatch_storage in Hsaved.
    - apply Hpos. rewrite <- Hsaved. cbn.
      unfold WeeklyReset.fetchGoogleFitSteps.
      now destruct isAuthorized, res. }
  intros Hno. apply (Hgen acts (initialScreen ∅) Hno).
  intros data0. unfold getItem. cbn. rewrite lookup_empty. discriminate.
Qed.

Lemma store_holds_positive_steps_without_manual_save_witness :
  0 < Daily.steps
        (sd_dailyRecords
           (WeeklyReset.dataToSave
              (app (WeeklyReset.performAll sampleRun (initialScreen ∅))))).
Proof.
  apply (store_holds_positive_steps_without_manual_save sampleRun).
  - intros H. unfold sampleRun in H.
    repeat (apply elem_of_cons in H as [H | H]; [discriminate |]).
    now apply elem_of_nil in H.
  - vm_compute. reflexivity.
Defined.

(** ** After the disconnect *)



End Reachable.
